(** * Verification of the financial core of [scripts_datos_general.py]

    Shallow embedding of the class [ExcelAnalyzer]: column classification
    ([_identificar_columnas]), numeric coercion of the monetary columns
    ([_preparar_columnas_financieras], the second definition in the class
    body, which overrides the first one) and aggregation
    ([calcular_totales_financieros]).

    Modelling choices:
    - column labels are strings or (for integer-labelled sheets) integers;
    - strings are ASCII strings and [str.lower] is ASCII lowercasing;
    - cells are numbers, text or missing values (NaN / None);
    - numbers are rationals [Q]: float rounding is not modelled;
    - a Python [dict] is an association list that keeps insertion order,
      where re-assigning an existing key keeps its position;
    - the string parsing of [pd.to_numeric] is a parameter [parse_num]
      (library code, not code of this repository). *)

From Stdlib Require Import String Ascii List ZArith QArith Bool Lia.
Import ListNotations.
Open Scope string_scope.

(** ** Strings *)

(** [str.lower] on ASCII characters. *)
Definition ascii_lower (c : ascii) : ascii :=
  let n := nat_of_ascii c in
  if (65 <=? n)%nat && (n <=? 90)%nat then ascii_of_nat (n + 32) else c.

Fixpoint lower (s : string) : string :=
  match s with
  | EmptyString => EmptyString
  | String c r => String (ascii_lower c) (lower r)
  end.

(** Python's substring test [sub in s]. *)
Fixpoint str_in (sub s : string) : bool :=
  prefix sub s ||
  match s with
  | EmptyString => false
  | String _ r => str_in sub r
  end.

(** ** Data model *)

(** A column label: a string, or a non-string label such as an integer. *)
Inductive nombre :=
| NStr (s : string)
| NInt (z : Z).

Definition nombre_eqb (a b : nombre) : bool :=
  match a, b with
  | NStr s, NStr t => String.eqb s t
  | NInt x, NInt y => Z.eqb x y
  | _, _ => false
  end.

(** Python's [x in xs] on a list of labels. *)
Definition mem (x : nombre) (xs : list nombre) : bool :=
  existsb (nombre_eqb x) xs.

(** A cell: a number, a text, or a missing value (NaN / None). *)
Inductive celda :=
| CNum (q : Q)
| CTexto (s : string)
| CNulo.

Definition Serie := list celda.

(** A sheet: its columns in order, each a label and its cells. *)
Definition DataFrame := list (nombre * Serie).

Definition columnas (df : DataFrame) : list nombre := map fst df.

(** [df[columna]]: [None] stands for a [KeyError]. *)
Fixpoint obtener_columna (df : DataFrame) (n : nombre) : option Serie :=
  match df with
  | [] => None
  | (m, s) :: r => if nombre_eqb n m then Some s else obtener_columna r n
  end.

(** ** Python dict with insertion order *)

Definition dict := list (string * Q).

(** [d[k] = v]: an existing key keeps its position, a new key goes last. *)
Fixpoint dict_set (k : string) (v : Q) (d : dict) : dict :=
  match d with
  | [] => [(k, v)]
  | (k', v') :: r =>
      if String.eqb k k' then (k, v) :: r else (k', v') :: dict_set k v r
  end.

Fixpoint dict_get (k : string) (d : dict) : option Q :=
  match d with
  | [] => None
  | (k', v') :: r => if String.eqb k k' then Some v' else dict_get k r
  end.

(** ** Configuration *)

Record Configuracion := {
  calcular_iva : option bool;
  iva_rate : option Q
}.

(** [configuracion or {}] with no key present. *)
Definition config_vacia : Configuracion :=
  {| calcular_iva := None; iva_rate := None |}.

(** [self.configuracion.get('calcular_iva', True)] *)
Definition get_calcular_iva (c : Configuracion) : bool :=
  match calcular_iva c with Some b => b | None => true end.

(** [self.configuracion.get('iva_rate', 0.16)] *)
Definition get_iva_rate (c : Configuracion) : Q :=
  match iva_rate c with Some r => r | None => 16 # 100 end.

(** ** Classification *)

Definition COLUMNAS_FINANCIERAS : list string :=
  ["monto"; "subtotal"; "iva"; "total"; "descuento";
   "impuesto"; "factura"; "precio"].

(** [isinstance(col, str) and any(termino in col.lower() for termino in
    self.COLUMNAS_FINANCIERAS)]; the same test guards the coercion. *)
Definition es_monetaria (col : nombre) : bool :=
  match col with
  | NStr s => existsb (fun termino => str_in termino (lower s)) COLUMNAS_FINANCIERAS
  | NInt _ => false
  end.

(** [_identificar_columnas]: the monetary list, then every column that is
    [not in] it. *)
Definition identificar_columnas (cols : list nombre) : list nombre * list nombre :=
  let columnas_monetarias := filter es_monetaria cols in
  let columnas_no_monetarias :=
    filter (fun col => negb (mem col columnas_monetarias)) cols in
  (columnas_monetarias, columnas_no_monetarias).

(** ** Numeric coercion and the analyzer *)

Section Analizador.

(** The number a text cell denotes for [pd.to_numeric], if any. *)
Variable parse_num : string -> option Q.

(** [pd.to_numeric(serie, errors='coerce')] on one cell: an unparsable
    value becomes NaN. *)
Definition to_numeric_coerce (c : celda) : celda :=
  match c with
  | CNum q => CNum q
  | CTexto s => match parse_num s with Some q => CNum q | None => CNulo end
  | CNulo => CNulo
  end.

(** [.fillna(0)] on one cell. *)
Definition fillna0 (c : celda) : celda :=
  match c with
  | CNulo => CNum 0
  | c => c
  end.

(** [df[columna] = pd.to_numeric(df[columna], errors='coerce')] followed by
    [df[columna] = df[columna].fillna(0)]. *)
Definition coercionar_serie (s : Serie) : Serie :=
  map fillna0 (map to_numeric_coerce s).

(** [_preparar_columnas_financieras]. *)
Definition preparar_columnas_financieras (df : DataFrame) : DataFrame :=
  map (fun '(columna, serie) =>
         if es_monetaria columna then (columna, coercionar_serie serie)
         else (columna, serie)) df.

(** The state of an [ExcelAnalyzer] after its constructor. *)
Record ExcelAnalyzer := {
  a_df : DataFrame;
  a_columnas_monetarias : list nombre;
  a_columnas_no_monetarias : list nombre;
  a_configuracion : Configuracion
}.

(** [__init__] on an already selected sheet: [_cargar_archivo] returns the
    prepared frame, then [_identificar_columnas] runs on its columns. *)
Definition nuevo_analizador (hoja : DataFrame) (conf : Configuracion) : ExcelAnalyzer :=
  let df := preparar_columnas_financieras hoja in
  let '(mon, nomon) := identificar_columnas (columnas df) in
  {| a_df := df; a_columnas_monetarias := mon;
     a_columnas_no_monetarias := nomon; a_configuracion := conf |}.

End Analizador.

(** ** Aggregation *)

(** [serie.sum()]: missing values are skipped; a text cell yields [None]
    (not reached: monetary columns are coerced at load time). *)
Fixpoint suma_serie (s : Serie) : option Q :=
  match s with
  | [] => Some 0
  | CNum q :: r => match suma_serie r with Some t => Some (q + t) | None => None end
  | CNulo :: r => suma_serie r
  | CTexto _ :: r => None
  end.

(** One iteration of the loop of [calcular_totales_financieros]. A non-string
    label yields [None] (not reached: monetary labels are strings). *)
Definition paso_columna (a : ExcelAnalyzer) (acc : option dict) (col : nombre)
  : option dict :=
  match acc, col with
  | Some totales, NStr columna =>
      match obtener_columna (a_df a) col with
      | None => None
      | Some serie =>
          match suma_serie serie with
          | None => None
          | Some total_columna =>
              let totales := dict_set ("Total " ++ columna) total_columna totales in
              if get_calcular_iva (a_configuracion a)
                 && negb (str_in "iva" (lower columna)) then
                let rate := get_iva_rate (a_configuracion a) in
                let iva := total_columna * rate in
                let totales := dict_set ("IVA de " ++ columna) iva totales in
                Some (dict_set ("Total con IVA de " ++ columna)
                               (total_columna + iva) totales)
              else Some totales
          end
      end
  | _, _ => None
  end.

(** [sum(valor for clave, valor in totales.items() if 'Total con IVA' in clave)] *)
Definition suma_con_iva (totales : dict) : Q :=
  fold_left (fun acc '(clave, valor) =>
               if str_in "Total con IVA" clave then acc + valor else acc)
            totales 0.

(** [calcular_totales_financieros]. *)
Definition calcular_totales_financieros (a : ExcelAnalyzer) : option dict :=
  match fold_left (paso_columna a) (a_columnas_monetarias a) (Some []) with
  | None => None
  | Some totales =>
      Some (dict_set "Total Factura" (suma_con_iva totales) totales)
  end.

(** The numeric interpretation of a cell that the specification asks for:
    a number stays, a parsable text is its number, anything else is 0. *)
Definition valor_numerico (parse : string -> option Q) (c : celda) : Q :=
  match c with
  | CNum q => q
  | CTexto s => match parse s with Some q => q | None => 0 end
  | CNulo => 0
  end.

(** [self.df[columna].sum()] *)
Definition total_de (a : ExcelAnalyzer) (columna : string) : option Q :=
  match obtener_columna (a_df a) (NStr columna) with
  | Some serie => suma_serie serie
  | None => None
  end.

(** The test guarding the tax entries of a column. *)
Definition con_iva (a : ExcelAnalyzer) (columna : string) : bool :=
  get_calcular_iva (a_configuracion a) && negb (str_in "iva" (lower columna)).

(** The sum that the specification names as the grand total: the values
    recorded under a key ["Total con IVA de " ++ columna] for a monetary
    column [columna]. *)
Definition es_clave_con_iva_de (mon : list nombre) (clave : string) : bool :=
  existsb (fun c => match c with
                    | NStr columna => String.eqb clave ("Total con IVA de " ++ columna)
                    | NInt _ => false
                    end) mon.

Definition suma_totales_con_iva_de (mon : list nombre) (totales : dict) : Q :=
  fold_left (fun acc '(clave, valor) =>
               if es_clave_con_iva_de mon clave then acc + valor else acc)
            totales 0.

(** Scenario A of the specification. *)
Definition hoja_A : DataFrame :=
  [(NStr "Fecha", [CTexto "2024-01-01"; CTexto "2024-01-02"]);
   (NStr "Precio", [CNum 100; CNum 200]);
   (NStr "Cantidad", [CNum 1; CNum 2])].

Definition conf_A : Configuracion :=
  {| calcular_iva := Some true; iva_rate := Some (16 # 100) |}.

Definition sin_parseo (s : string) : option Q := None.

(** A single monetary column whose label contains "Total con IVA". *)
Definition hoja_C1 : DataFrame := [(NStr "Total con IVA", [CNum 100])].

(** A monetary column whose "Total" label is the tax-inclusive label of
    another column. *)
Definition hoja_C6 : DataFrame :=
  [(NStr "Precio", [CNum 100]); (NStr "con IVA de Precio", [CNum 5])].

Definition conf_sin_iva : Configuracion :=
  {| calcular_iva := Some false; iva_rate := None |}.

(** Scenario C of the specification. *)
Definition hoja_IVA : DataFrame := [(NStr "IVA", [CNum 10; CNum 20])].

(** A sheet with a price column and an "IVA" column, and the same sheet
    with other cells in "IVA". *)
Definition hoja_Precio_IVA : DataFrame :=
  [(NStr "Precio", [CNum 100]); (NStr "IVA", [CNum 10; CNum 20])].
Definition hoja_Precio_IVA' : DataFrame :=
  [(NStr "Precio", [CNum 100]); (NStr "IVA", [CTexto "n/d"; CNum 99])].

(** A monetary column labelled "Factura". *)
Definition hoja_Factura : DataFrame :=
  [(NStr "Factura", [CNum 100]); (NStr "Cliente", [CTexto "ACME"])].

(** ** Expected shape of the totals *)

(** The sum of a column, read as 0 when it cannot be taken (never the case
    for a monetary column of a built analyzer). *)
Definition total_o_cero (a : ExcelAnalyzer) (columna : string) : Q :=
  match total_de a columna with Some t => t | None => 0 end.

(** The entries one monetary column adds, in the order the loop writes them. *)
Definition entradas_columna (a : ExcelAnalyzer) (c : nombre) : dict :=
  match c with
  | NStr columna =>
      let t := total_o_cero a columna in
      let rate := get_iva_rate (a_configuracion a) in
      ("Total " ++ columna, t) ::
      (if con_iva a columna
       then [("IVA de " ++ columna, t * rate);
             ("Total con IVA de " ++ columna, t + t * rate)]
       else [])
  | NInt _ => []
  end.

(** The tax-inclusive totals of the columns that qualify for tax, summed. *)
Definition total_factura_esperado (a : ExcelAnalyzer) (mon : list nombre) : Q :=
  fold_right (fun c acc =>
                match c with
                | NStr columna =>
                    if con_iva a columna
                    then let t := total_o_cero a columna in
                         t + t * get_iva_rate (a_configuracion a) + acc
                    else acc
                | NInt _ => acc
                end) 0 mon.

(** The labels written for a column [s]. *)
Definition clave_de (s k : string) : Prop :=
  k = "Total " ++ s \/ k = "IVA de " ++ s \/ k = "Total con IVA de " ++ s.

(** Two sheets with the same labels, in the same order, and the same cells
    in every monetary column. *)
Definition igual_en_monetarias (c1 c2 : nombre * Serie) : Prop :=
  fst c1 = fst c2 /\ (es_monetaria (fst c1) = true -> snd c1 = snd c2).

(** Two columns with the same label, whose cells agree unless the label is
    [s]. *)
Definition igual_salvo (s : string) (c1 c2 : nombre * Serie) : Prop :=
  fst c1 = fst c2 /\ (fst c1 <> NStr s -> snd c1 = snd c2).

(** Two dicts with the same keys in the same order, whose values agree
    except under the key [k]. *)
Definition dict_igual_salvo (k : string) (d1 d2 : dict) : Prop :=
  Forall2 (fun e1 e2 => fst e1 = fst e2 /\ (fst e1 <> k -> snd e1 = snd e2)) d1 d2.

Definition opt_igual_salvo (k : string) (o1 o2 : option dict) : Prop :=
  match o1, o2 with
  | Some d1, Some d2 => dict_igual_salvo k d1 d2
  | None, None => True
  | _, _ => False
  end.

(** ** The summary of [generar_reporte_html] *)

(** One line of the summary; [fmt] stands for the format [{valor:,.2f}]. *)
Definition item_resumen (fmt : Q -> string) (concepto : string) (valor : Q) : string :=
  "<div class='resumen-item'><span>" ++ concepto ++ ":</span> <strong>$" ++
  fmt valor ++ "</strong></div>".

(** The loop that builds [resumen_financiero]. *)
Definition resumen_financiero (fmt : Q -> string) (totales : dict) : string :=
  fold_left (fun acc '(concepto, valor) =>
               if negb (String.eqb concepto "Total Factura")
               then acc ++ item_resumen fmt concepto valor
               else acc) totales "".

(** ** File and sheet selection *)

(** The result of a selection: the selected value, a [FileNotFoundError],
    another exception propagated by the [except Exception: ... raise] of
    [_validar_archivo] (the [ValueError] of [int(archivo_excel)], an error
    raised by the glob of the name), or a prompt still waiting for input
    (the [while True] loop). *)
Inductive resultado (A : Type) :=
| Ok (x : A)
| NoEncontrado
| Excepcion
| EsperaEntrada.
Arguments Ok {A} x.
Arguments NoEncontrado {A}.
Arguments Excepcion {A}.
Arguments EsperaEntrada {A}.

(** What [_validar_archivo] reads from the file system. The argument is the
    [str] that [main], the only caller, reads with [input().strip()]. *)
Record Entorno := {
  es_archivo : string -> bool;           (* Path(x).is_file() *)
  glob_excel : list string;              (* list(Path().glob("**/*.xls*")) *)
  glob_nombre : string -> option (list string)
    (* list(Path().glob(f"**/{x}")); [None] when the glob raises *)
}.

Definition es_digito (c : ascii) : bool :=
  (48 <=? nat_of_ascii c)%nat && (nat_of_ascii c <=? 57)%nat.

(** [str.isdigit] on ASCII strings: non-empty and all digits. *)
Definition isdigit_ascii (s : string) : bool :=
  match s with
  | EmptyString => false
  | _ => forallb es_digito (list_ascii_of_string s)
  end.

(** [int(s)] on a string of ASCII digits. *)
Definition valor_decimal (s : string) : Z :=
  fold_left (fun acc c => (10 * acc + Z.of_nat (nat_of_ascii c - 48))%Z)
            (list_ascii_of_string s) 0%Z.

Section Seleccion.

(** [int(...)] on a string; [None] is a [ValueError]. *)
Variable parse_int : string -> option Z.

(** [str.isdigit] (true also on non-ASCII digits, some of which, such as
    superscripts, [int] rejects). *)
Variable isdigit : string -> bool.

(** The disambiguation prompt of [_validar_archivo]: a non-integer or an
    out-of-range number asks again. *)
Fixpoint elegir_ruta (posibles_rutas : list string) (entradas : list string)
  : resultado string :=
  match entradas with
  | [] => EsperaEntrada
  | e :: r =>
      match parse_int e with
      | Some seleccion =>
          if (1 <=? seleccion)%Z && (seleccion <=? Z.of_nat (length posibles_rutas))%Z
          then Ok (nth (Z.to_nat (seleccion - 1)) posibles_rutas "")
          else elegir_ruta posibles_rutas r
      | None => elegir_ruta posibles_rutas r
      end
  end.

(** [_validar_archivo]. *)
Definition validar_archivo (env : Entorno) (archivo_excel : string)
  (entradas : list string) : resultado string :=
  (* from [posibles_rutas = list(Path().glob(f"**/{archivo_excel}"))] on *)
  let por_nombre :=
    match glob_nombre env archivo_excel with
    | None => Excepcion
    | Some [] => NoEncontrado
    | Some [ruta] => Ok ruta
    | Some posibles_rutas => elegir_ruta posibles_rutas entradas
    end in
  if es_archivo env archivo_excel then Ok archivo_excel
  else if isdigit archivo_excel then
    match parse_int archivo_excel with
    | None => Excepcion
    | Some num =>
        let archivos_excel := glob_excel env in
        if (1 <=? num)%Z && (num <=? Z.of_nat (length archivos_excel))%Z
        then Ok (nth (Z.to_nat (num - 1)) archivos_excel "")
        else por_nombre
    end
  else por_nombre.

(** The sheet prompt of [_cargar_archivo]: [int(input(...)) - 1], accepted
    when [0 <= seleccion < len(xls.sheet_names)]; [None] while waiting. *)
Fixpoint elegir_hoja (n_hojas : nat) (entradas : list string) : option Z :=
  match entradas with
  | [] => None
  | e :: r =>
      match parse_int e with
      | Some v =>
          let seleccion := (v - 1)%Z in
          if (0 <=? seleccion)%Z && (seleccion <? Z.of_nat n_hojas)%Z
          then Some seleccion
          else elegir_hoja n_hojas r
      | None => elegir_hoja n_hojas r
      end
  end.

End Seleccion.

(** ** Concrete instances for the selection loops *)

(** [int(s)] on plain unsigned decimal strings. *)
Definition int_decimal (s : string) : option Z :=
  if isdigit_ascii s then Some (valor_decimal s) else None.

(** A working directory with two workbooks and two files named
    "ventas.xlsx" in different folders. *)
Definition entorno_ej : Entorno := {|
  es_archivo := fun _ => false;
  glob_excel := ["datos/a.xlsx"; "b.xls"];
  glob_nombre := fun s => if String.eqb s "ventas.xlsx"
                          then Some ["2023/ventas.xlsx"; "2024/ventas.xlsx"] else Some [] |}.

(** A sheet with no monetary column. *)
Definition hoja_Clientes : DataFrame :=
  [(NStr "Cliente", [CTexto "ACME"]); (NStr "Fecha", [CTexto "2024-01-01"])].

(** * Lemmas *)

(** ** Strings *)

Lemma prefix_iff (p s : string) :
  prefix p s = true <-> exists suf, s = p ++ suf.
Proof.
  revert s; induction p as [|a p IH]; intros s; simpl.
  - split; [intros _; now exists s | now destruct s].
  - destruct s as [|b s].
    + split; [discriminate | intros [suf H]; discriminate].
    + simpl. destruct (ascii_dec a b) as [<-|Hab].
      * rewrite IH. split; intros [suf H]; exists suf.
        -- now rewrite H.
        -- now injection H.
      * split; [discriminate | intros [suf H]; injection H; congruence].
Qed.

Lemma str_in_unfold (sub s : string) :
  str_in sub s = prefix sub s ||
                 match s with EmptyString => false | String _ r => str_in sub r end.
Proof. now destruct s. Qed.

Lemma str_in_iff (sub s : string) :
  str_in sub s = true <-> exists pre suf, s = pre ++ sub ++ suf.
Proof.
  induction s as [|c r IH]; rewrite str_in_unfold, orb_true_iff, prefix_iff.
  - split.
    + intros [[suf H] | H]; [exists EmptyString, suf; exact H | discriminate].
    + intros [pre [suf H]]. left. destruct pre; [now exists suf | discriminate].
  - rewrite IH. split.
    + intros [[suf H] | [pre [suf H]]].
      * now exists EmptyString, suf.
      * exists (String c pre), suf. simpl. now rewrite H.
    + intros [pre [suf H]]. destruct pre as [|d pre].
      * left. now exists suf.
      * right. injection H as -> H. now exists pre, suf.
Qed.

(** ** Labels *)

Lemma nombre_eqb_spec (a b : nombre) : reflect (a = b) (nombre_eqb a b).
Proof.
  destruct a as [s|x], b as [t|y]; simpl; try (constructor; discriminate).
  - destruct (String.eqb_spec s t); constructor; congruence.
  - destruct (Z.eqb_spec x y); constructor; congruence.
Qed.

Lemma mem_In (x : nombre) (xs : list nombre) : mem x xs = true <-> In x xs.
Proof.
  unfold mem. rewrite existsb_exists. split.
  - intros [y [Hy Heq]]. destruct (nombre_eqb_spec x y); [subst; exact Hy | discriminate].
  - intros H. exists x. split; [exact H|]. destruct (nombre_eqb_spec x x); congruence.
Qed.

(** The complement computed with [not in] is the filter on the negated test. *)
Lemma no_monetarias_filter (cols : list nombre) :
  filter (fun col => negb (mem col (filter es_monetaria cols))) cols
  = filter (fun col => negb (es_monetaria col)) cols.
Proof.
  apply filter_ext_in. intros c Hc. f_equal.
  destruct (mem c (filter es_monetaria cols)) eqn:E.
  - apply mem_In, filter_In in E. symmetry. apply E.
  - destruct (es_monetaria c) eqn:M; [|reflexivity].
    exfalso. assert (mem c (filter es_monetaria cols) = true) as T
      by (apply mem_In, filter_In; auto). congruence.
Qed.

(** ** Coercion keeps the labels *)

Lemma columnas_preparar (parse : string -> option Q) (hoja : DataFrame) :
  columnas (preparar_columnas_financieras parse hoja) = columnas hoja.
Proof.
  unfold columnas, preparar_columnas_financieras. rewrite map_map.
  apply map_ext. intros [n s]. now destruct (es_monetaria n).
Qed.

Lemma monetarias_nuevo parse hoja conf :
  a_columnas_monetarias (nuevo_analizador parse hoja conf)
  = filter es_monetaria (columnas hoja).
Proof. unfold nuevo_analizador. simpl. now rewrite columnas_preparar. Qed.

Lemma no_monetarias_nuevo parse hoja conf :
  a_columnas_no_monetarias (nuevo_analizador parse hoja conf)
  = filter (fun col => negb (es_monetaria col)) (columnas hoja).
Proof.
  unfold nuevo_analizador. simpl. rewrite columnas_preparar.
  apply no_monetarias_filter.
Qed.

Lemma coercionar_celda parse (c : celda) :
  fillna0 (to_numeric_coerce parse c) = CNum (valor_numerico parse c).
Proof. destruct c as [q|s|]; simpl; [reflexivity| |reflexivity]. now destruct (parse s). Qed.

Lemma coercionar_serie_map parse (s : Serie) :
  coercionar_serie parse s = map (fun c => CNum (valor_numerico parse c)) s.
Proof.
  unfold coercionar_serie. rewrite map_map. apply map_ext. apply coercionar_celda.
Qed.

Lemma nth_preparar parse (hoja : DataFrame) (i : nat) (n : nombre) (serie : Serie) :
  nth_error hoja i = Some (n, serie) ->
  nth_error (preparar_columnas_financieras parse hoja) i
  = Some (if es_monetaria n then (n, coercionar_serie parse serie) else (n, serie)).
Proof.
  intros H. unfold preparar_columnas_financieras. now rewrite nth_error_map, H.
Qed.

(** ** Dict *)

Lemma dict_get_set (k k' : string) (v : Q) (d : dict) :
  dict_get k (dict_set k' v d) = if String.eqb k k' then Some v else dict_get k d.
Proof.
  induction d as [|[k0 v0] r IH]; simpl.
  - reflexivity.
  - destruct (String.eqb_spec k' k0) as [<-|Hne]; simpl.
    + destruct (String.eqb k k'); reflexivity.
    + rewrite IH. destruct (String.eqb_spec k k'), (String.eqb_spec k k0); congruence.
Qed.

Lemma claves_set_In (k : string) (v : Q) (d : dict) :
  In k (map fst d) -> map fst (dict_set k v d) = map fst d.
Proof.
  induction d as [|[k0 v0] r IH]; simpl; [tauto|]. intros H.
  destruct (String.eqb_spec k k0) as [<-|Hne]; simpl; [reflexivity|].
  f_equal. apply IH. destruct H; [congruence | assumption].
Qed.

Lemma claves_set_In_iff (k k' : string) (v : Q) (d : dict) :
  In k' (map fst (dict_set k v d)) <-> k' = k \/ In k' (map fst d).
Proof.
  induction d as [|[k0 v0] r IH]; simpl; [intuition congruence|].
  destruct (String.eqb_spec k k0) as [<-|Hne]; simpl; [intuition congruence|].
  rewrite IH. intuition congruence.
Qed.

Lemma claves_set_NoDup (k : string) (v : Q) (d : dict) :
  NoDup (map fst d) -> NoDup (map fst (dict_set k v d)).
Proof.
  induction d as [|[k0 v0] r IH]; simpl; intros H.
  - constructor; [intros []|constructor].
  - inversion H as [|? ? Hn Hr]; subst.
    destruct (String.eqb_spec k k0) as [<-|Hne]; simpl; [exact H|].
    constructor; [|now apply IH].
    rewrite claves_set_In_iff. intros [E|E]; [congruence | exact (Hn E)].
Qed.

Lemma append_inj_l (p x y : string) : p ++ x = p ++ y -> x = y.
Proof. induction p as [|c p IH]; simpl; [auto|]. intros H. injection H. exact IH. Qed.

(** ** The aggregation loop *)

Section Bucle.

Variable a : ExcelAnalyzer.

Lemma paso_none (l : list nombre) : fold_left (paso_columna a) l None = None.
Proof. induction l as [|c l IH]; simpl; auto. Qed.

(** The effect of one iteration on the value stored under a key. *)
Lemma paso_get (e e' : dict) (c : nombre) :
  paso_columna a (Some e) c = Some e' ->
  exists columna t, c = NStr columna /\ total_de a columna = Some t /\
  forall K, dict_get K e' =
    if con_iva a columna && String.eqb K ("Total con IVA de " ++ columna)
    then Some (t + t * get_iva_rate (a_configuracion a))
    else if con_iva a columna && String.eqb K ("IVA de " ++ columna)
    then Some (t * get_iva_rate (a_configuracion a))
    else if String.eqb K ("Total " ++ columna) then Some t
    else dict_get K e.
Proof.
  destruct c as [columna|z]; simpl; [|discriminate].
  intros H. exists columna. unfold total_de, con_iva.
  destruct (obtener_columna (a_df a) (NStr columna)) as [serie|]; [|discriminate].
  destruct (suma_serie serie) as [t|]; [|discriminate].
  exists t. split; [reflexivity|]. split; [reflexivity|].
  intros K.
  destruct (get_calcular_iva (a_configuracion a)
            && negb (str_in "iva" (lower columna))); simpl.
  - injection H as <-. rewrite !dict_get_set. reflexivity.
  - injection H as <-. rewrite dict_get_set. reflexivity.
Qed.

(** An invariant of the dict kept by every iteration holds at the end. *)
Lemma bucle_inv (P : dict -> Prop) (l : list nombre) (d d' : dict) :
  P d ->
  (forall c e e', In c l -> P e -> paso_columna a (Some e) c = Some e' -> P e') ->
  fold_left (paso_columna a) l (Some d) = Some d' -> P d'.
Proof.
  revert d. induction l as [|c l IH]; cbn [fold_left]; intros d Hd Hstep H.
  - congruence.
  - destruct (paso_columna a (Some d) c) as [e|] eqn:E.
    + apply (IH e).
      * exact (Hstep c d e (or_introl eq_refl) Hd E).
      * intros c' e0 e0' Hc'. apply Hstep. now right.
      * exact H.
    + rewrite paso_none in H. discriminate.
Qed.

(** The value under a key [K] at the end of the loop, when the columns that
    write [K] (those where [f] holds) all write the same value [v]. *)
Lemma bucle_clave (K : string) (v : Q) (f : nombre -> bool) (l : list nombre)
  (d d' : dict) :
  (forall c e e', In c l -> paso_columna a (Some e) c = Some e' ->
     dict_get K e' = if f c then Some v else dict_get K e) ->
  fold_left (paso_columna a) l (Some d) = Some d' ->
  dict_get K d' = if existsb f l then Some v else dict_get K d.
Proof.
  revert d. induction l as [|c l IH]; cbn [fold_left existsb]; intros d Hstep H.
  - congruence.
  - destruct (paso_columna a (Some d) c) as [e|] eqn:E.
    + rewrite (IH e); [| intros c' e0 e0' Hc'; apply Hstep; now right | exact H].
      rewrite (Hstep c d e (or_introl eq_refl) E).
      destruct (f c), (existsb f l); reflexivity.
    + rewrite paso_none in H. discriminate.
Qed.

(** The loop succeeds when every column it visits has a string label and a
    numeric sum. *)
Lemma bucle_some (l : list nombre) (d : dict) :
  (forall c, In c l -> exists columna t, c = NStr columna /\ total_de a columna = Some t) ->
  exists d', fold_left (paso_columna a) l (Some d) = Some d'.
Proof.
  revert d. induction l as [|c l IH]; cbn [fold_left]; intros d H; [eauto|].
  destruct (H c (or_introl eq_refl)) as [columna [t [-> Ht]]].
  unfold total_de in Ht. simpl.
  destruct (obtener_columna (a_df a) (NStr columna)) as [serie|]; [|discriminate].
  rewrite Ht.
  assert (Hl : forall c, In c l ->
            exists columna t, c = NStr columna /\ total_de a columna = Some t)
    by (intros c' Hc'; apply H; now right).
  destruct (get_calcular_iva (a_configuracion a) && negb (str_in "iva" (lower columna)));
    apply IH; exact Hl.
Qed.

End Bucle.

(** ** The loop on a freshly built analyzer *)

Lemma suma_numerica (qs : list Q) : exists t, suma_serie (map CNum qs) = Some t.
Proof.
  induction qs as [|q qs [t IH]]; simpl; [eauto|]. rewrite IH. eauto.
Qed.

Lemma obtener_preparar parse (hoja : DataFrame) (n : nombre) :
  obtener_columna (preparar_columnas_financieras parse hoja) n
  = match obtener_columna hoja n with
    | Some s => Some (if es_monetaria n then coercionar_serie parse s else s)
    | None => None
    end.
Proof.
  induction hoja as [|[m s] r IH]; simpl; [reflexivity|].
  destruct (es_monetaria m) eqn:M; simpl;
  destruct (nombre_eqb_spec n m); subst; try rewrite M; auto.
Qed.

Lemma obtener_In (hoja : DataFrame) (n : nombre) :
  In n (columnas hoja) -> exists s, obtener_columna hoja n = Some s.
Proof.
  induction hoja as [|[m s] r IH]; simpl; [tauto|]. intros H.
  destruct (nombre_eqb_spec n m); [eauto|]. apply IH. destruct H; [congruence|auto].
Qed.

(** Every monetary column of a built analyzer has a string label and a sum. *)
Lemma monetaria_total parse hoja conf (c : nombre) :
  In c (a_columnas_monetarias (nuevo_analizador parse hoja conf)) ->
  exists columna t, c = NStr columna /\
    total_de (nuevo_analizador parse hoja conf) columna = Some t.
Proof.
  rewrite monetarias_nuevo, filter_In. intros [Hin M].
  destruct c as [columna|z]; [|discriminate].
  exists columna. unfold total_de. simpl. rewrite obtener_preparar, M.
  destruct (obtener_In hoja (NStr columna) Hin) as [s ->].
  rewrite coercionar_serie_map, <- (map_map (valor_numerico parse) CNum).
  destruct (suma_numerica (map (valor_numerico parse) s)) as [t Ht].
  exists t. auto.
Qed.

Lemma bucle_nuevo parse hoja conf :
  let a := nuevo_analizador parse hoja conf in
  exists d', fold_left (paso_columna a) (a_columnas_monetarias a) (Some []) = Some d'.
Proof.
  intros a. apply bucle_some. intros c Hc. now apply monetaria_total.
Qed.

(** ** Auxiliary facts for the aggregation claims *)

Lemma conf_nuevo parse hoja conf :
  a_configuracion (nuevo_analizador parse hoja conf) = conf.
Proof. reflexivity. Qed.

Lemma df_nuevo parse hoja conf :
  a_df (nuevo_analizador parse hoja conf) = preparar_columnas_financieras parse hoja.
Proof. reflexivity. Qed.

Lemma existsb_sel (s : string) (b : bool) (l : list nombre) :
  In (NStr s) l -> existsb (fun c => nombre_eqb c (NStr s) && b) l = b.
Proof.
  intros H. destruct b.
  - apply existsb_exists. exists (NStr s). split; [exact H|].
    simpl. now rewrite String.eqb_refl.
  - clear H. induction l as [|c l IH]; simpl; [reflexivity|].
    now rewrite andb_false_r, IH.
Qed.

Lemma dict_get_In (k : string) (v : Q) (d : dict) :
  dict_get k d = Some v -> In k (map fst d).
Proof.
  induction d as [|[k0 v0] r IH]; simpl; [discriminate|].
  destruct (String.eqb_spec k k0); [left; congruence | right; auto].
Qed.

Lemma paso_NoDup (a : ExcelAnalyzer) (e e' : dict) (c : nombre) :
  NoDup (map fst e) -> paso_columna a (Some e) c = Some e' -> NoDup (map fst e').
Proof.
  intros H. destruct c as [columna|z]; simpl; [|discriminate].
  destruct (obtener_columna (a_df a) (NStr columna)) as [serie|]; [|discriminate].
  destruct (suma_serie serie) as [t|]; [|discriminate].
  destruct (get_calcular_iva (a_configuracion a) && negb (str_in "iva" (lower columna)));
    intros E; injection E as <-; repeat apply claves_set_NoDup; exact H.
Qed.

Lemma monetaria_en_hoja parse hoja conf (c : nombre) :
  In c (a_columnas_monetarias (nuevo_analizador parse hoja conf)) ->
  In c (columnas hoja).
Proof. rewrite monetarias_nuevo, filter_In. tauto. Qed.

(** ** Labels of the totals *)

Lemma string_app_assoc (x y z : string) : x ++ y ++ z = (x ++ y) ++ z.
Proof. induction x as [|c x IH]; simpl; [reflexivity|]. now rewrite IH. Qed.

Lemma str_in_pre (p s : string) (sub : string) :
  str_in sub s = true -> str_in sub (p ++ s) = true.
Proof.
  rewrite !str_in_iff. intros [pre [suf ->]]. exists (p ++ pre), suf.
  now rewrite string_app_assoc.
Qed.

Lemma str_in_Total_con_IVA (s : string) :
  str_in "Total con IVA" s = true -> str_in "con IVA" s = true.
Proof.
  rewrite !str_in_iff. intros [pre [suf ->]]. exists (pre ++ "Total "), suf.
  now rewrite <- string_app_assoc.
Qed.

Lemma prefix_str_in (p s : string) : prefix p s = true -> str_in p s = true.
Proof. intros H. rewrite str_in_unfold, H. reflexivity. Qed.

(** A label without "con IVA" gives a "Total" and an "IVA de" label that the
    grand-total filter does not pick. *)
Lemma filtro_Total (s : string) :
  str_in "con IVA" s = false -> str_in "Total con IVA" ("Total " ++ s) = false.
Proof.
  intros H. simpl.
  destruct (prefix "con IVA" s) eqn:P.
  - apply prefix_str_in in P. congruence.
  - destruct (str_in "Total con IVA" s) eqn:Q'; [|reflexivity].
    apply str_in_Total_con_IVA in Q'. congruence.
Qed.

Lemma filtro_IVA (s : string) :
  str_in "con IVA" s = false -> str_in "Total con IVA" ("IVA de " ++ s) = false.
Proof.
  intros H. simpl.
  destruct (str_in "Total con IVA" s) eqn:Q'; [|reflexivity].
  apply str_in_Total_con_IVA in Q'. congruence.
Qed.

Lemma con_IVA_de (s : string) : str_in "con IVA" ("con IVA de " ++ s) = true.
Proof. apply prefix_str_in. reflexivity. Qed.

(** Two columns without "con IVA" in their labels never share a label. *)
Lemma clave_de_inj (s s' k : string) :
  str_in "con IVA" s = false -> str_in "con IVA" s' = false ->
  clave_de s k -> clave_de s' k -> s = s'.
Proof.
  intros Hs Hs' H1 H2.
  destruct H1 as [-> | [-> | ->]]; destruct H2 as [E|[E|E]];
    try discriminate E.
  - now apply append_inj_l in E.
  - change ("Total con IVA de " ++ s') with ("Total " ++ ("con IVA de " ++ s')) in E.
    apply append_inj_l in E. subst s. rewrite con_IVA_de in Hs. discriminate.
  - now apply append_inj_l in E.
  - change ("Total con IVA de " ++ s) with ("Total " ++ ("con IVA de " ++ s)) in E.
    apply append_inj_l in E. subst s'. rewrite con_IVA_de in Hs'. discriminate.
  - now apply append_inj_l in E.
Qed.

Lemma dict_set_nuevo (k : string) (v : Q) (d : dict) :
  ~ In k (map fst d) -> dict_set k v d = (d ++ [(k, v)])%list.
Proof.
  induction d as [|[k0 v0] r IH]; simpl; [reflexivity|]. intros H.
  destruct (String.eqb_spec k k0); [exfalso; apply H; now left|].
  f_equal. apply IH. intros E. apply H. now right.
Qed.

(** ** The loop writes fresh labels *)

Lemma claves_entradas (a : ExcelAnalyzer) (s k : string) :
  In k (map fst (entradas_columna a (NStr s))) -> clave_de s k.
Proof.
  unfold entradas_columna, clave_de. destruct (con_iva a s); simpl; intuition congruence.
Qed.

Lemma claves_flat (a : ExcelAnalyzer) (l : list nombre) (k : string) :
  In k (map fst (flat_map (entradas_columna a) l)) ->
  exists s, In (NStr s) l /\ clave_de s k.
Proof.
  induction l as [|c l IH]; simpl; [tauto|].
  rewrite map_app, in_app_iff. intros [H|H].
  - destruct c as [s|z]; [|destruct H]. exists s. split; [now left|].
    exact (claves_entradas a s k H).
  - destruct (IH H) as [s [Hs Hk]]. exists s. split; [now right|exact Hk].
Qed.

Lemma paso_plano (a : ExcelAnalyzer) (d : dict) (s : string) (t : Q) :
  total_de a s = Some t -> str_in "con IVA" s = false ->
  (forall k, In k (map fst d) -> ~ clave_de s k) ->
  paso_columna a (Some d) (NStr s) = Some (d ++ entradas_columna a (NStr s))%list.
Proof.
  intros Ht Hs Hk.
  unfold paso_columna, entradas_columna, total_o_cero, total_de, con_iva in *.
  destruct (obtener_columna (a_df a) (NStr s)) as [serie|]; [|discriminate].
  rewrite Ht. cbv beta iota zeta.
  rewrite (dict_set_nuevo ("Total " ++ s) t d)
    by (intros H; exact (Hk _ H (or_introl eq_refl))).
  destruct (get_calcular_iva (a_configuracion a) && negb (str_in "iva" (lower s))).
  - rewrite (dict_set_nuevo ("IVA de " ++ s)).
    2:{ rewrite map_app, in_app_iff. intros [H|[H|[]]].
        - exact (Hk _ H (or_intror (or_introl eq_refl))).
        - discriminate H. }
    rewrite (dict_set_nuevo ("Total con IVA de " ++ s)).
    2:{ rewrite !map_app, !in_app_iff. intros [[H|[H|[]]]|[H|[]]].
        - exact (Hk _ H (or_intror (or_intror eq_refl))).
        - change ("Total con IVA de " ++ s) with ("Total " ++ ("con IVA de " ++ s)) in H.
          apply append_inj_l in H. rewrite H, con_IVA_de in Hs. discriminate.
        - discriminate H. }
    now rewrite <- !app_assoc.
  - reflexivity.
Qed.

Lemma bucle_plano (a : ExcelAnalyzer) (l : list nombre) (d : dict) :
  NoDup l ->
  (forall c, In c l -> exists s t,
       c = NStr s /\ total_de a s = Some t /\ str_in "con IVA" s = false) ->
  (forall k s, In k (map fst d) -> In (NStr s) l -> ~ clave_de s k) ->
  fold_left (paso_columna a) l (Some d)
  = Some (d ++ flat_map (entradas_columna a) l)%list.
Proof.
  revert d. induction l as [|c l IH]; intros d Hnd Hl Hk.
  - cbn. now rewrite app_nil_r.
  - destruct (Hl c (or_introl eq_refl)) as [s [t [-> [Ht Hs]]]].
    inversion Hnd as [|? ? Hnin Hnd']; subst.
    cbn [fold_left].
    rewrite (paso_plano a d s t Ht Hs)
      by (intros k Hk'; exact (Hk k s Hk' (or_introl eq_refl))).
    rewrite IH.
    + cbn [flat_map]. now rewrite app_assoc.
    + exact Hnd'.
    + intros c' Hc'. apply Hl. now right.
    + intros k s' Hk' Hs'. rewrite map_app, in_app_iff in Hk'. destruct Hk' as [Hk'|Hk'].
      * apply (Hk k s' Hk'). now right.
      * intros Hc. apply claves_entradas in Hk'.
        destruct (Hl (NStr s') (or_intror Hs')) as [s'' [t'' [E [_ Hs'']]]].
        injection E as <-.
        assert (s = s') as -> by exact (clave_de_inj s s' k Hs Hs'' Hk' Hc).
        exact (Hnin Hs').
Qed.

Lemma bucle_plano_nuevo parse hoja conf :
  let a := nuevo_analizador parse hoja conf in
  NoDup (columnas hoja) ->
  (forall s, In (NStr s) (a_columnas_monetarias a) -> str_in "con IVA" s = false) ->
  fold_left (paso_columna a) (a_columnas_monetarias a) (Some [])
  = Some (flat_map (entradas_columna a) (a_columnas_monetarias a)).
Proof.
  intros a Hnd Hs. apply bucle_plano.
  - unfold a. rewrite monetarias_nuevo. now apply NoDup_filter.
  - intros c Hc. destruct (monetaria_total parse hoja conf c Hc) as [s [t [-> Ht]]].
    exists s, t. split; [reflexivity|]. split; [exact Ht|]. now apply Hs.
  - intros k s [].
Qed.

(** ** The grand-total filter *)

Lemma suma_fold_acc (l : dict) (acc : Q) :
  fold_left (fun acc '(clave, valor) =>
               if str_in "Total con IVA" clave then acc + valor else acc) l acc
  == acc + fold_left (fun acc '(clave, valor) =>
               if str_in "Total con IVA" clave then acc + valor else acc) l 0.
Proof.
  revert acc. induction l as [|[k v] l IH]; intros acc; cbn [fold_left].
  - ring.
  - destruct (str_in "Total con IVA" k).
    + rewrite (IH (acc + v)), (IH (0 + v)). ring.
    + rewrite (IH acc). ring.
Qed.

Lemma suma_con_iva_cons (k : string) (v : Q) (l : dict) :
  suma_con_iva ((k, v) :: l)
  == (if str_in "Total con IVA" k then v else 0) + suma_con_iva l.
Proof.
  unfold suma_con_iva. cbn [fold_left].
  destruct (str_in "Total con IVA" k); rewrite suma_fold_acc; ring.
Qed.

Lemma suma_con_iva_app (l1 l2 : dict) :
  suma_con_iva (l1 ++ l2)%list == suma_con_iva l1 + suma_con_iva l2.
Proof.
  induction l1 as [|[k v] l1 IH]; simpl app.
  - unfold suma_con_iva at 2. cbn [fold_left]. ring.
  - rewrite !suma_con_iva_cons, IH. ring.
Qed.

Lemma suma_con_iva_nil : suma_con_iva [] == 0.
Proof. reflexivity. Qed.

Lemma suma_entradas (a : ExcelAnalyzer) (l : list nombre) :
  (forall s, In (NStr s) l -> str_in "con IVA" s = false) ->
  suma_con_iva (flat_map (entradas_columna a) l) == total_factura_esperado a l.
Proof.
  induction l as [|c l IH]; intros Hs; [reflexivity|].
  cbn [flat_map total_factura_esperado fold_right].
  rewrite suma_con_iva_app.
  fold (total_factura_esperado a l).
  rewrite IH by (intros s Hin; apply Hs; now right).
  destruct c as [s|z]; [|simpl; rewrite suma_con_iva_nil; ring].
  assert (H : str_in "con IVA" s = false) by (apply Hs; now left).
  unfold entradas_columna.
  destruct (con_iva a s).
  - rewrite !suma_con_iva_cons, suma_con_iva_nil, filtro_Total, filtro_IVA by exact H.
    replace (str_in "Total con IVA" ("Total con IVA de " ++ s)) with true
      by (symmetry; apply prefix_str_in; reflexivity).
    ring.
  - rewrite suma_con_iva_cons, suma_con_iva_nil, filtro_Total by exact H. ring.
Qed.

(** ** Sums with no filtered label *)

Lemma suma_fold_cero (l : dict) (acc : Q) :
  (forall k, In k (map fst l) -> str_in "Total con IVA" k = false) ->
  fold_left (fun acc '(clave, valor) =>
               if str_in "Total con IVA" clave then acc + valor else acc) l acc = acc.
Proof.
  revert acc. induction l as [|[k v] l IH]; intros acc H; cbn [fold_left]; [reflexivity|].
  rewrite (H k (or_introl eq_refl)). apply IH. intros k' Hk'. apply H. now right.
Qed.

(** ** Lookups in sheets that agree on their monetary columns *)

Lemma obtener_igual (h1 h2 : DataFrame) (n : nombre) :
  Forall2 igual_en_monetarias h1 h2 -> es_monetaria n = true ->
  obtener_columna h1 n = obtener_columna h2 n.
Proof.
  intros H M. induction H as [|[n1 s1] [n2 s2] r1 r2 [E1 E2] _ IH]; simpl in *; [reflexivity|].
  subst n2. destruct (nombre_eqb_spec n n1) as [<-|]; [|exact IH].
  now rewrite (E2 M).
Qed.

Lemma fold_paso_ext (a1 a2 : ExcelAnalyzer) (l : list nombre) (acc : option dict) :
  (forall c acc, In c l -> paso_columna a1 acc c = paso_columna a2 acc c) ->
  fold_left (paso_columna a1) l acc = fold_left (paso_columna a2) l acc.
Proof.
  revert acc. induction l as [|c l IH]; intros acc H; cbn [fold_left]; [reflexivity|].
  rewrite (H c acc (or_introl eq_refl)). apply IH. intros c' acc' Hc. apply H. now right.
Qed.

(** ** Sheets that differ in one column *)

Lemma dict_set_igual_salvo (k k' : string) (v1 v2 : Q) (d1 d2 : dict) :
  dict_igual_salvo k d1 d2 -> (k' <> k -> v1 = v2) ->
  dict_igual_salvo k (dict_set k' v1 d1) (dict_set k' v2 d2).
Proof.
  intros H Hv. induction H as [|[a1 b1] [a2 b2] r1 r2 [Ea Eb] Hr IH]; simpl in *.
  - constructor; [split; [reflexivity|exact Hv]|constructor].
  - subst a2. destruct (String.eqb_spec k' a1) as [<-|Hne].
    + constructor; [split; [reflexivity|exact Hv]|exact Hr].
    + constructor; [split; [reflexivity|exact Eb]|exact IH].
Qed.

Lemma dict_igual_salvo_get (k K : string) (d1 d2 : dict) :
  dict_igual_salvo k d1 d2 -> K <> k -> dict_get K d1 = dict_get K d2.
Proof.
  intros H HK. induction H as [|[a1 b1] [a2 b2] r1 r2 [Ea Eb] _ IH]; simpl in *;
    [reflexivity|].
  subst a2. destruct (String.eqb_spec K a1) as [<-|]; [now rewrite (Eb HK)|exact IH].
Qed.

Lemma dict_igual_salvo_claves (k : string) (d1 d2 : dict) :
  dict_igual_salvo k d1 d2 -> map fst d1 = map fst d2.
Proof. intros H. induction H as [|e1 e2 r1 r2 [Ea _] _ IH]; simpl; congruence. Qed.

Lemma suma_con_iva_igual_salvo (k : string) (d1 d2 : dict) :
  dict_igual_salvo k d1 d2 -> str_in "Total con IVA" k = false ->
  suma_con_iva d1 = suma_con_iva d2.
Proof.
  intros H Hk. unfold suma_con_iva. generalize (0 : Q) as acc.
  induction H as [|[a1 b1] [a2 b2] r1 r2 [Ea Eb] _ IH]; intros acc; cbn [fold_left];
    [reflexivity|].
  simpl in Ea, Eb. subst a2.
  destruct (str_in "Total con IVA" a1) eqn:E; [|apply IH].
  rewrite Eb; [apply IH|]. intros ->. congruence.
Qed.

Lemma obtener_salvo (s : string) (h1 h2 : DataFrame) (n : nombre) :
  Forall2 (igual_salvo s) h1 h2 -> n <> NStr s ->
  obtener_columna h1 n = obtener_columna h2 n.
Proof.
  intros H Hn. induction H as [|[n1 s1] [n2 s2] r1 r2 [E1 E2] _ IH]; simpl in *;
    [reflexivity|].
  subst n2. destruct (nombre_eqb_spec n n1) as [<-|]; [|exact IH].
  now rewrite (E2 Hn).
Qed.

Lemma columnas_salvo (s : string) (h1 h2 : DataFrame) :
  Forall2 (igual_salvo s) h1 h2 -> columnas h1 = columnas h2.
Proof.
  unfold columnas. intros H. induction H as [|c1 c2 r1 r2 [E _] _ IH]; simpl; congruence.
Qed.

(** The cells of a column [s] whose label gets no tax entries only reach
    the entry ["Total " ++ s], provided that entry is not summed into the
    grand total. *)
Lemma calcular_salvo (parse : string -> option Q) (conf : Configuracion) (s : string)
  (h1 h2 : DataFrame) :
  Forall2 (igual_salvo s) h1 h2 ->
  str_in "iva" (lower s) = true ->
  str_in "Total con IVA" ("Total " ++ s) = false ->
  exists tot1 tot2,
    calcular_totales_financieros (nuevo_analizador parse h1 conf) = Some tot1 /\
    calcular_totales_financieros (nuevo_analizador parse h2 conf) = Some tot2 /\
    dict_igual_salvo ("Total " ++ s) tot1 tot2.
Proof.
  intros H Hiva Hk.
  assert (Hmon : a_columnas_monetarias (nuevo_analizador parse h2 conf)
                 = a_columnas_monetarias (nuevo_analizador parse h1 conf))
    by (rewrite !monetarias_nuevo; now rewrite (columnas_salvo s h1 h2 H)).
  assert (Hf : forall l o1 o2,
             incl l (a_columnas_monetarias (nuevo_analizador parse h1 conf)) ->
             opt_igual_salvo ("Total " ++ s) o1 o2 ->
             opt_igual_salvo ("Total " ++ s)
               (fold_left (paso_columna (nuevo_analizador parse h1 conf)) l o1)
               (fold_left (paso_columna (nuevo_analizador parse h2 conf)) l o2)).
  { induction l as [|c l IH]; intros o1 o2 Hl Ho; cbn [fold_left]; [exact Ho|].
    apply IH; [intros x Hx; apply Hl; now right|].
    assert (Hc : In c (a_columnas_monetarias (nuevo_analizador parse h1 conf)))
      by (apply Hl; now left).
    destruct o1 as [d1|], o2 as [d2|]; try contradiction; [|exact I].
    destruct (monetaria_total parse h1 conf c Hc) as [col [t1 [-> Ht1]]].
    assert (Hc2 : In (NStr col) (a_columnas_monetarias (nuevo_analizador parse h2 conf)))
      by (rewrite Hmon; exact Hc).
    destruct (monetaria_total parse h2 conf _ Hc2) as [col' [t2 [Ecol Ht2]]].
    injection Ecol as <-.
    unfold total_de in Ht1, Ht2.
    destruct (obtener_columna (a_df (nuevo_analizador parse h1 conf)) (NStr col))
      as [se1|] eqn:O1; [|discriminate].
    destruct (obtener_columna (a_df (nuevo_analizador parse h2 conf)) (NStr col))
      as [se2|] eqn:O2; [|discriminate].
    unfold paso_columna. rewrite O1, O2, Ht1, Ht2. cbv zeta.
    destruct (String.eqb_spec col s) as [->|Hne].
    - rewrite Hiva, !andb_false_r.
      apply dict_set_igual_salvo; [exact Ho|]. intros Hne; contradiction.
    - assert (Eq : se1 = se2).
      { rewrite !df_nuevo, !obtener_preparar in *.
        rewrite (obtener_salvo s h1 h2 (NStr col) H) in O1 by congruence. congruence. }
      subst se2. rewrite Ht2 in Ht1. injection Ht1 as <-.
      change (a_configuracion (nuevo_analizador parse h2 conf))
        with (a_configuracion (nuevo_analizador parse h1 conf)).
      destruct (get_calcular_iva (a_configuracion (nuevo_analizador parse h1 conf))
                && negb (str_in "iva" (lower col))); simpl;
        repeat (apply dict_set_igual_salvo; [|intros; reflexivity]); exact Ho. }
  destruct (bucle_nuevo parse h1 conf) as [d1 Hd1]. cbv zeta in Hd1.
  pose proof (Hf _ (Some []) (Some []) (incl_refl _) (Forall2_nil _)) as Hr.
  unfold calcular_totales_financieros. rewrite Hmon. rewrite Hd1 in Hr |- *.
  destruct (fold_left (paso_columna (nuevo_analizador parse h2 conf))
              (a_columnas_monetarias (nuevo_analizador parse h1 conf)) (Some []))
    as [d2|]; [|contradiction].
  do 2 eexists. split; [reflexivity|]. split; [reflexivity|].
  rewrite (suma_con_iva_igual_salvo _ d1 d2 Hr Hk).
  apply dict_set_igual_salvo; [exact Hr|intros; reflexivity].
Qed.

(** ** Selection loops *)

Lemma elegir_ruta_In parse_int (posibles entradas : list string) (p : string) :
  elegir_ruta parse_int posibles entradas = Ok p -> In p posibles.
Proof.
  induction entradas as [|e r IH]; simpl; [discriminate|].
  destruct (parse_int e) as [n|]; [|exact IH].
  destruct ((1 <=? n)%Z && (n <=? Z.of_nat (length posibles))%Z) eqn:R; [|exact IH].
  intros H. injection H as <-. apply andb_true_iff in R. destruct R as [R1 R2].
  apply Z.leb_le in R1, R2. apply nth_In. lia.
Qed.


Lemma elegir_ruta_no_Excepcion parse_int (posibles entradas : list string) :
  elegir_ruta parse_int posibles entradas <> Excepcion.
Proof.
  induction entradas as [|e r IH]; simpl; [discriminate|].
  destruct (parse_int e); [|exact IH]. destruct (_ && _); [discriminate|exact IH].
Qed.

(** The name-search part of [_validar_archivo], for any glob outcome [g]. *)
Section PorNombre.
Variable parse_int : string -> option Z.
Variable entradas : list string.

Definition por_nombre (g : option (list string)) : resultado string :=
  match g with
  | None => Excepcion
  | Some [] => NoEncontrado
  | Some [ruta] => Ok ruta
  | Some posibles_rutas => elegir_ruta parse_int posibles_rutas entradas
  end.

Lemma por_nombre_Ok (g : option (list string)) (p : string) :
  por_nombre g = Ok p -> exists l, g = Some l /\ In p l.
Proof.
  destruct g as [[|r1 [|r2 rs]]|]; simpl; try discriminate.
  - intros H. injection H as ->. exists [p]. split; [reflexivity|now left].
  - intros H. eexists. split; [reflexivity|]. exact (elegir_ruta_In parse_int _ entradas p H).
Qed.


Lemma por_nombre_Espera (g : option (list string)) :
  por_nombre g = EsperaEntrada -> exists l, g = Some l /\ (2 <= length l)%nat.
Proof.
  destruct g as [[|r1 [|r2 rs]]|]; simpl; try discriminate.
  intros _. eexists. split; [reflexivity|simpl; lia].
Qed.

End PorNombre.

(** ** The summary loop *)

Lemma resumen_fold_acc (fmt : Q -> string) (l : dict) (acc : string) :
  fold_left (fun acc '(concepto, valor) =>
               if negb (String.eqb concepto "Total Factura")
               then acc ++ item_resumen fmt concepto valor
               else acc) l acc
  = acc ++ fold_right String.append ""
             (map (fun '(concepto, valor) => item_resumen fmt concepto valor)
               (filter (fun '(concepto, _) => negb (String.eqb concepto "Total Factura")) l)).
Proof.
  revert acc. induction l as [|[k v] l IH]; intros acc; cbn [fold_left filter].
  - simpl. symmetry. induction acc as [|c acc IHa]; simpl; congruence.
  - destruct (negb (String.eqb k "Total Factura")); rewrite IH; [|reflexivity].
    cbn [map fold_right]. symmetry. apply string_app_assoc.
Qed.

Lemma length_filter_unico (k : string) (l : dict) :
  NoDup (map fst l) -> In k (map fst l) ->
  (length (filter (fun '(concepto, _) => negb (String.eqb concepto k)) l) = length l - 1)%nat.
Proof.
  induction l as [|[k0 v0] l IH]; simpl; [tauto|]. intros Hnd [E|Hin];
    inversion Hnd as [|? ? Hn Hnd']; subst.
  - rewrite String.eqb_refl. simpl.
    assert (Hf : filter (fun '(concepto, _) => negb (String.eqb concepto k)) l = l).
    { clear IH Hnd Hnd'. induction l as [|[k1 v1] l IHl]; simpl; [reflexivity|].
      destruct (String.eqb_spec k1 k) as [->|]; [exfalso; apply Hn; now left|].
      simpl. f_equal. apply IHl. intros H. apply Hn. now right. }
    rewrite Hf. lia.
  - destruct (String.eqb_spec k0 k) as [->|]; [contradiction|]. simpl.
    rewrite IH by assumption. destruct l; simpl in *; [tauto|lia].
Qed.

(** * Claims *)

(** ** Classification *)

(** C2: the classification is a total and disjoint partition of the
    table's labels; both parts keep the table order (each is the table's
    label list filtered by the monetary test or its negation). *)
Theorem C2_particion (parse : string -> option Q) (hoja : DataFrame)
  (conf : Configuracion) :
  let a := nuevo_analizador parse hoja conf in
  a_columnas_monetarias a = filter es_monetaria (columnas hoja) /\
  a_columnas_no_monetarias a
    = filter (fun col => negb (es_monetaria col)) (columnas hoja) /\
  (forall c, In c (columnas hoja) <->
             In c (a_columnas_monetarias a) \/ In c (a_columnas_no_monetarias a)) /\
  (forall c, ~ (In c (a_columnas_monetarias a) /\ In c (a_columnas_no_monetarias a))).
Proof.
  intros a. unfold a. rewrite monetarias_nuevo, no_monetarias_nuevo.
  split; [reflexivity|]. split; [reflexivity|]. split.
  - intros c. rewrite !filter_In. destruct (es_monetaria c); simpl; tauto.
  - intros c [H1 H2]. apply filter_In in H1, H2.
    destruct H1 as [_ H1], H2 as [_ H2]. rewrite H1 in H2. discriminate.
Qed.

(** C3: a string label is monetary iff it is a label of the table and its
    lowercase form contains one of the eight keywords as a substring,
    anywhere; "Precio Unitario" and "PRECIOSO" are both monetary. *)
Theorem C3_palabras_clave (parse : string -> option Q) (hoja : DataFrame)
  (conf : Configuracion) (s : string) :
  (In (NStr s) (a_columnas_monetarias (nuevo_analizador parse hoja conf)) <->
   In (NStr s) (columnas hoja) /\
   exists termino, In termino ["monto"; "subtotal"; "iva"; "total"; "descuento";
                               "impuesto"; "factura"; "precio"] /\
   exists pre suf, lower s = pre ++ termino ++ suf) /\
  es_monetaria (NStr "Precio Unitario") = true /\
  es_monetaria (NStr "PRECIOSO") = true.
Proof.
  split; [|split; reflexivity].
  rewrite monetarias_nuevo, filter_In.
  change (es_monetaria (NStr s))
    with (existsb (fun termino => str_in termino (lower s)) COLUMNAS_FINANCIERAS).
  rewrite existsb_exists. split.
  - intros [Hin [t [Ht Hs]]]. split; [exact Hin|].
    exists t. split; [exact Ht|]. now apply str_in_iff.
  - intros [Hin [t [Ht Hs]]]. split; [exact Hin|].
    exists t. split; [exact Ht|]. now apply str_in_iff.
Qed.

(** C4: a non-string label is never monetary; it is in the non-monetary
    part exactly when it is a label of the table. *)
Theorem C4_no_cadena (parse : string -> option Q) (hoja : DataFrame)
  (conf : Configuracion) (z : Z) :
  let a := nuevo_analizador parse hoja conf in
  ~ In (NInt z) (a_columnas_monetarias a) /\
  (In (NInt z) (columnas hoja) <-> In (NInt z) (a_columnas_no_monetarias a)).
Proof.
  intros a. unfold a. rewrite monetarias_nuevo, no_monetarias_nuevo.
  rewrite !filter_In. simpl. split; [intros [_ H]; discriminate | tauto].
Qed.

(** ** Coercion *)

(** C5: coercion is a total function on sheets; a monetary column becomes a
    column of the same length whose cells are all numbers, each the numeric
    interpretation of the original cell, an unparsable cell giving exactly
    0; an empty column stays empty. *)
Theorem C5_coercion_total (parse : string -> option Q) :
  (forall (hoja : DataFrame) i n serie,
     nth_error hoja i = Some (n, serie) -> es_monetaria n = true ->
     nth_error (preparar_columnas_financieras parse hoja) i
     = Some (n, coercionar_serie parse serie)) /\
  (forall serie : Serie,
     length (coercionar_serie parse serie) = length serie /\
     forall j c, nth_error serie j = Some c ->
       nth_error (coercionar_serie parse serie) j = Some (CNum (valor_numerico parse c))) /\
  (forall s, parse s = None -> coercionar_serie parse [CTexto s] = [CNum 0]) /\
  coercionar_serie parse [CNulo] = [CNum 0] /\
  coercionar_serie parse [] = [].
Proof.
  split; [|split; [|split; [|split]]].
  - intros hoja i n serie H M. rewrite (nth_preparar parse hoja i n serie H), M.
    reflexivity.
  - intros serie. rewrite coercionar_serie_map. split.
    + apply length_map.
    + intros j c H. now rewrite nth_error_map, H.
  - intros s H. unfold coercionar_serie. simpl. now rewrite H.
  - reflexivity.
  - reflexivity.
Qed.

(** C8: coercion leaves a numeric column unchanged, and running the whole
    coercion pass twice gives the same sheet as running it once. *)
Theorem C8_idempotencia (parse : string -> option Q) :
  (forall qs : list Q, coercionar_serie parse (map CNum qs) = map CNum qs) /\
  (forall hoja : DataFrame,
     preparar_columnas_financieras parse (preparar_columnas_financieras parse hoja)
     = preparar_columnas_financieras parse hoja).
Proof.
  assert (Hnum : forall qs, coercionar_serie parse (map CNum qs) = map CNum qs).
  { intros qs. rewrite coercionar_serie_map, map_map. reflexivity. }
  split; [exact Hnum|].
  intros hoja. unfold preparar_columnas_financieras. rewrite map_map.
  apply map_ext. intros [n serie].
  destruct (es_monetaria n) eqn:M; rewrite M; [|reflexivity].
  f_equal. rewrite (coercionar_serie_map parse serie), <- map_map.
  apply Hnum.
Qed.

(** C9: a column that is not classified monetary (in particular one with a
    non-string label) keeps its label and its cells, at its position. *)
Theorem C9_marco (parse : string -> option Q) (hoja : DataFrame)
  (conf : Configuracion) (i : nat) (n : nombre) (serie : Serie)
  (Hi : nth_error hoja i = Some (n, serie))
  (Hn : ~ In n (a_columnas_monetarias (nuevo_analizador parse hoja conf))) :
  nth_error (a_df (nuevo_analizador parse hoja conf)) i = Some (n, serie).
Proof.
  unfold nuevo_analizador. simpl. rewrite (nth_preparar parse hoja i n serie Hi).
  destruct (es_monetaria n) eqn:M; [|reflexivity].
  exfalso. apply Hn. rewrite monetarias_nuevo, filter_In. split; [|exact M].
  unfold columnas. apply nth_error_In with i. now rewrite nth_error_map, Hi.
Qed.

Lemma C9_marco_witness :
  nth_error hoja_A 0 = Some (NStr "Fecha", [CTexto "2024-01-01"; CTexto "2024-01-02"]) /\
  ~ In (NStr "Fecha") (a_columnas_monetarias (nuevo_analizador sin_parseo hoja_A conf_A)) /\
  nth_error (a_df (nuevo_analizador sin_parseo hoja_A conf_A)) 0
  = Some (NStr "Fecha", [CTexto "2024-01-01"; CTexto "2024-01-02"]).
Proof.
  assert (H2 : ~ In (NStr "Fecha")
                 (a_columnas_monetarias (nuevo_analizador sin_parseo hoja_A conf_A))).
  { vm_compute. intros [H|H]; [discriminate H | exact H]. }
  split; [reflexivity|]. split; [exact H2|].
  apply (C9_marco sin_parseo hoja_A conf_A 0 (NStr "Fecha")); [reflexivity | exact H2].
Defined.

(** ** Aggregation *)

(** C7: Scenario A. Whatever the cells of "Fecha" and "Cantidad", the only
    monetary column is "Precio", and the totals are, in this insertion
    order, 300, 48, 348 and 348. *)
Theorem C7_escenario_A (parse : string -> option Q) (fecha cantidad : Serie) :
  let a := nuevo_analizador parse
             [(NStr "Fecha", fecha); (NStr "Precio", [CNum 100; CNum 200]);
              (NStr "Cantidad", cantidad)] conf_A in
  a_columnas_monetarias a = [NStr "Precio"] /\
  exists tot, calcular_totales_financieros a = Some tot /\
    map fst tot = ["Total Precio"; "IVA de Precio"; "Total con IVA de Precio";
                   "Total Factura"] /\
    Forall2 Qeq (map snd tot) [300; 48; 348; 348].
Proof.
  intros a. split; [reflexivity|].
  remember (calcular_totales_financieros a) as r eqn:E.
  unfold a in E. vm_compute in E. subst r.
  eexists. split; [reflexivity|]. split; [reflexivity|].
  repeat constructor.
Qed.

(** C1 (code defect): on a sheet whose only column is "Total con IVA", no
    column qualifies for tax and no "Total con IVA de <column>" entry is
    recorded, yet "Total Factura" is 100: the filter
    ['Total con IVA' in clave] also picks the per-column entry
    "Total Total con IVA". *)
Theorem C1_total_factura_hoja_C1 :
  let a := nuevo_analizador sin_parseo hoja_C1 config_vacia in
  a_columnas_monetarias a = [NStr "Total con IVA"] /\
  con_iva a "Total con IVA" = false /\
  exists tot g, calcular_totales_financieros a = Some tot /\
    dict_get "Total Factura" tot = Some g /\ g == 100 /\
    suma_totales_con_iva_de (a_columnas_monetarias a) tot == 0.
Proof.
  intros a. split; [reflexivity|]. split; [reflexivity|].
  remember (calcular_totales_financieros a) as r eqn:E.
  unfold a in E. vm_compute in E. subst r.
  do 2 eexists. split; [reflexivity|]. split; [reflexivity|].
  split; vm_compute; reflexivity.
Qed.

(** C6, as stated, fails: with [calcular_iva = False], the entry
    "Total con IVA de Precio" is still recorded, by the per-column total of
    the monetary column "con IVA de Precio". *)
Lemma C6_contraejemplo :
  let a := nuevo_analizador sin_parseo hoja_C6 conf_sin_iva in
  In (NStr "Precio") (a_columnas_monetarias a) /\
  get_calcular_iva (a_configuracion a) = false /\
  exists tot, calcular_totales_financieros a = Some tot /\
    dict_get "Total con IVA de Precio" tot <> None.
Proof.
  intros a. split; [vm_compute; now left|]. split; [reflexivity|].
  remember (calcular_totales_financieros a) as r eqn:E.
  unfold a in E. vm_compute in E. subst r.
  eexists. split; [reflexivity|]. vm_compute. discriminate.
Qed.

(** C6 (amended): for a monetary column [s], provided the sheet has no
    column labelled ["con IVA de " ++ s] (whose per-column total would be
    recorded under the label ["Total con IVA de " ++ s]), the returned
    mapping has "IVA de <s>" = total * rate and "Total con IVA de <s>" =
    total + total * rate when [calcular_iva] (default true) holds and the
    lowercase label of [s] does not contain "iva", and neither entry
    otherwise; the rate defaults to 0.16. So a column "IVA", in any sheet,
    gets no tax entries (first part at [s = "IVA"]); and its cells reach no
    entry but "Total IVA", which the grand-total filter never matches: two
    sheets that differ only in the cells of "IVA" give totals with the same
    keys and the same values under every key other than "Total IVA", so in
    particular the same "Total Factura". Scenario C: a column "IVA" with
    cells 10 and 20 gives only "Total IVA" = 30, and "Total Factura" = 0. *)
Theorem C6_iva_por_columna (parse : string -> option Q) (hoja : DataFrame)
  (conf : Configuracion) (s : string)
  (Hs : In (NStr s) (a_columnas_monetarias (nuevo_analizador parse hoja conf)))
  (Hc : ~ In (NStr ("con IVA de " ++ s)) (columnas hoja)) :
  (let cond := match calcular_iva conf with Some b => b | None => true end
               && negb (str_in "iva" (lower s)) in
   let rate := match iva_rate conf with Some r => r | None => 16 # 100 end in
   exists t tot,
     total_de (nuevo_analizador parse hoja conf) s = Some t /\
     calcular_totales_financieros (nuevo_analizador parse hoja conf) = Some tot /\
     dict_get ("IVA de " ++ s) tot = (if cond then Some (t * rate) else None) /\
     dict_get ("Total con IVA de " ++ s) tot
       = (if cond then Some (t + t * rate) else None)) /\
  (forall hoja', Forall2 (igual_salvo "IVA") hoja hoja' ->
   exists tot tot',
     calcular_totales_financieros (nuevo_analizador parse hoja conf) = Some tot /\
     calcular_totales_financieros (nuevo_analizador parse hoja' conf) = Some tot' /\
     map fst tot = map fst tot' /\
     (forall k, k <> "Total IVA" -> dict_get k tot = dict_get k tot')) /\
  (exists tot t g,
     calcular_totales_financieros (nuevo_analizador parse hoja_IVA config_vacia)
       = Some tot /\
     map fst tot = ["Total IVA"; "Total Factura"] /\
     dict_get "Total IVA" tot = Some t /\ t == 30 /\
     dict_get "Total Factura" tot = Some g /\ g == 0).
Proof.
  split.
  2:{ split.
      - intros hoja' Hh.
        destruct (calcular_salvo parse conf "IVA" hoja hoja' Hh eq_refl eq_refl)
          as [tot [tot' [E1 [E2 R]]]].
        exists tot, tot'. split; [exact E1|]. split; [exact E2|].
        split; [exact (dict_igual_salvo_claves _ _ _ R)|].
        intros k Hk. exact (dict_igual_salvo_get _ k _ _ R Hk).
      - remember (calcular_totales_financieros (nuevo_analizador parse hoja_IVA config_vacia))
          as r eqn:E.
        vm_compute in E. subst r. do 3 eexists.
        split; [reflexivity|]. split; [reflexivity|]. split; [reflexivity|].
        split; [vm_compute; reflexivity|]. split; [reflexivity|].
        vm_compute; reflexivity. }
  intros cond rate.
  destruct (monetaria_total parse hoja conf _ Hs) as [s' [t [E Ht]]].
  injection E as <-.
  destruct (bucle_nuevo parse hoja conf) as [d' Hd'].
  exists t, (dict_set "Total Factura" (suma_con_iva d') d').
  split; [exact Ht|].
  split; [unfold calcular_totales_financieros; now rewrite Hd'|].
  assert (Hcond : con_iva (nuevo_analizador parse hoja conf) s = cond) by reflexivity.
  assert (Hrate : get_iva_rate (a_configuracion (nuevo_analizador parse hoja conf)) = rate)
    by reflexivity.
  split.
  - rewrite dict_get_set.
    assert (N : String.eqb ("IVA de " ++ s) "Total Factura" = false) by reflexivity.
    rewrite N.
    rewrite (bucle_clave (nuevo_analizador parse hoja conf) ("IVA de " ++ s) (t * rate)
               (fun c => nombre_eqb c (NStr s) && cond)
               (a_columnas_monetarias (nuevo_analizador parse hoja conf)) [] d');
      [ rewrite existsb_sel by exact Hs; now destruct cond | | exact Hd'].
    intros c e e' _ Hp.
    destruct (paso_get (nuevo_analizador parse hoja conf) e e' c Hp) as [col [t' [-> [Ht' HK]]]].
    rewrite HK, Hrate.
    assert (N1 : String.eqb ("IVA de " ++ s) ("Total con IVA de " ++ col) = false)
      by reflexivity.
    assert (N2 : String.eqb ("IVA de " ++ s) ("Total " ++ col) = false) by reflexivity.
    rewrite N1, N2, andb_false_r. simpl nombre_eqb.
    destruct (String.eqb_spec ("IVA de " ++ s) ("IVA de " ++ col)) as [Eq|Ne].
    + apply append_inj_l in Eq. subst col. rewrite String.eqb_refl, andb_true_r.
      rewrite Ht in Ht'. injection Ht' as <-. rewrite Hcond. simpl.
      now destruct cond.
    + rewrite andb_false_r. destruct (String.eqb_spec col s) as [->|]; [congruence|].
      reflexivity.
  - rewrite dict_get_set.
    assert (N : String.eqb ("Total con IVA de " ++ s) "Total Factura" = false)
      by reflexivity.
    rewrite N.
    rewrite (bucle_clave (nuevo_analizador parse hoja conf) ("Total con IVA de " ++ s) (t + t * rate)
               (fun c => nombre_eqb c (NStr s) && cond)
               (a_columnas_monetarias (nuevo_analizador parse hoja conf)) [] d');
      [ rewrite existsb_sel by exact Hs; now destruct cond | | exact Hd'].
    intros c e e' Hin Hp.
    destruct (paso_get (nuevo_analizador parse hoja conf) e e' c Hp) as [col [t' [-> [Ht' HK]]]].
    rewrite HK, Hrate.
    assert (N1 : String.eqb ("Total con IVA de " ++ s) ("IVA de " ++ col) = false)
      by reflexivity.
    assert (N2 : String.eqb ("Total con IVA de " ++ s) ("Total " ++ col) = false).
    { destruct (String.eqb_spec ("Total con IVA de " ++ s) ("Total " ++ col)) as [Eq|];
        [|reflexivity].
      change ("Total con IVA de " ++ s) with ("Total " ++ ("con IVA de " ++ s)) in Eq.
      apply append_inj_l in Eq. subst col.
      exfalso. apply Hc. exact (monetaria_en_hoja parse hoja conf _ Hin). }
    rewrite N1, N2, andb_false_r. simpl nombre_eqb.
    destruct (String.eqb_spec ("Total con IVA de " ++ s) ("Total con IVA de " ++ col))
      as [Eq|Ne].
    + apply append_inj_l in Eq. subst col. rewrite String.eqb_refl, andb_true_r.
      rewrite Ht in Ht'. injection Ht' as <-. rewrite Hcond. simpl.
      now destruct cond.
    + rewrite andb_false_r. destruct (String.eqb_spec col s) as [->|]; [congruence|].
      reflexivity.
Qed.

Lemma C6_iva_por_columna_witness :
  (In (NStr "Precio") (a_columnas_monetarias (nuevo_analizador sin_parseo hoja_A conf_A)) /\
   ~ In (NStr ("con IVA de " ++ "Precio")) (columnas hoja_A) /\
   exists t tot,
     total_de (nuevo_analizador sin_parseo hoja_A conf_A) "Precio" = Some t /\
     calcular_totales_financieros (nuevo_analizador sin_parseo hoja_A conf_A) = Some tot /\
     dict_get ("IVA de " ++ "Precio") tot = Some (t * (16 # 100)) /\
     dict_get ("Total con IVA de " ++ "Precio") tot = Some (t + t * (16 # 100))) /\
  (In (NStr "IVA")
      (a_columnas_monetarias (nuevo_analizador sin_parseo hoja_Precio_IVA config_vacia)) /\
   ~ In (NStr ("con IVA de " ++ "IVA")) (columnas hoja_Precio_IVA) /\
   Forall2 (igual_salvo "IVA") hoja_Precio_IVA hoja_Precio_IVA' /\
   exists tot tot',
     calcular_totales_financieros (nuevo_analizador sin_parseo hoja_Precio_IVA config_vacia)
       = Some tot /\
     calcular_totales_financieros (nuevo_analizador sin_parseo hoja_Precio_IVA' config_vacia)
       = Some tot' /\
     map fst tot = map fst tot' /\
     (forall k, k <> "Total IVA" -> dict_get k tot = dict_get k tot')).
Proof.
  split.
  - assert (H1 : In (NStr "Precio")
                   (a_columnas_monetarias (nuevo_analizador sin_parseo hoja_A conf_A)))
      by (vm_compute; now left).
    assert (H2 : ~ In (NStr ("con IVA de " ++ "Precio")) (columnas hoja_A)).
    { vm_compute. intros [H|[H|[H|[]]]]; discriminate H. }
    split; [exact H1|]. split; [exact H2|].
    exact (proj1 (C6_iva_por_columna sin_parseo hoja_A conf_A "Precio" H1 H2)).
  - assert (H1 : In (NStr "IVA")
                   (a_columnas_monetarias
                      (nuevo_analizador sin_parseo hoja_Precio_IVA config_vacia)))
      by (vm_compute; right; now left).
    assert (H2 : ~ In (NStr ("con IVA de " ++ "IVA")) (columnas hoja_Precio_IVA)).
    { vm_compute. intros [H|[H|[]]]; discriminate H. }
    assert (H3 : Forall2 (igual_salvo "IVA") hoja_Precio_IVA hoja_Precio_IVA').
    { unfold hoja_Precio_IVA, hoja_Precio_IVA', igual_salvo.
      constructor; [split; [reflexivity|intros; reflexivity]|].
      constructor; [split; [reflexivity|intros Hn; exfalso; now apply Hn]|constructor]. }
    split; [exact H1|]. split; [exact H2|]. split; [exact H3|].
    exact (proj1 (proj2 (C6_iva_por_columna sin_parseo hoja_Precio_IVA config_vacia "IVA"
                           H1 H2)) hoja_Precio_IVA' H3).
Defined.

(** C10: when the sheet has a column labelled "Factura", the loop records
    its total under "Total Factura"; the final assignment overwrites that
    entry with the grand total, in place: the returned mapping has the same
    keys as the loop's dict, each once, and "Total Factura" holds only the
    grand total. *)
Theorem C10_colision_factura (parse : string -> option Q) (hoja : DataFrame)
  (conf : Configuracion) (H : In (NStr "Factura") (columnas hoja)) :
  let a := nuevo_analizador parse hoja conf in
  exists d' t,
    fold_left (paso_columna a) (a_columnas_monetarias a) (Some []) = Some d' /\
    total_de a "Factura" = Some t /\
    dict_get "Total Factura" d' = Some t /\
    calcular_totales_financieros a
      = Some (dict_set "Total Factura" (suma_con_iva d') d') /\
    map fst (dict_set "Total Factura" (suma_con_iva d') d') = map fst d' /\
    NoDup (map fst d') /\
    dict_get "Total Factura" (dict_set "Total Factura" (suma_con_iva d') d')
      = Some (suma_con_iva d').
Proof.
  intros a.
  assert (Hm : In (NStr "Factura") (a_columnas_monetarias a)).
  { unfold a. rewrite monetarias_nuevo, filter_In. split; [exact H | reflexivity]. }
  destruct (monetaria_total parse hoja conf _ Hm) as [s' [t [E Ht]]].
  injection E as <-.
  destruct (bucle_nuevo parse hoja conf) as [d' Hd'].
  fold a in Hd', Ht.
  assert (Hget : dict_get "Total Factura" d' = Some t).
  { rewrite (bucle_clave a "Total Factura" t (fun c => nombre_eqb c (NStr "Factura") && true)
               (a_columnas_monetarias a) [] d');
      [ now rewrite existsb_sel by exact Hm | | exact Hd'].
    intros c e e' _ Hp.
    destruct (paso_get a e e' c Hp) as [col [t' [-> [Ht' HK]]]].
    rewrite HK.
    assert (N1 : String.eqb "Total Factura" ("Total con IVA de " ++ col) = false)
      by reflexivity.
    assert (N2 : String.eqb "Total Factura" ("IVA de " ++ col) = false) by reflexivity.
    rewrite N1, N2, !andb_false_r, andb_true_r. simpl nombre_eqb.
    destruct (String.eqb_spec "Total Factura" ("Total " ++ col)) as [Eq|Ne].
    + change "Total Factura" with ("Total " ++ "Factura") in Eq.
      apply append_inj_l in Eq. subst col. rewrite Ht in Ht'. now injection Ht' as <-.
    + destruct (String.eqb_spec col "Factura") as [->|]; [|reflexivity].
      exfalso. apply Ne. reflexivity. }
  exists d', t.
  split; [exact Hd'|]. split; [exact Ht|]. split; [exact Hget|].
  split; [unfold calcular_totales_financieros; now rewrite Hd'|].
  split; [apply claves_set_In; exact (dict_get_In _ _ _ Hget)|].
  split.
  - apply (bucle_inv a (fun d => NoDup (map fst d)) (a_columnas_monetarias a) [] d');
      [constructor | | exact Hd'].
    intros c e e' _ He Hp. exact (paso_NoDup a e e' c He Hp).
  - rewrite dict_get_set, String.eqb_refl. reflexivity.
Qed.

Lemma C10_colision_factura_witness :
  In (NStr "Factura") (columnas hoja_Factura) /\
  let a := nuevo_analizador sin_parseo hoja_Factura config_vacia in
  exists d' t,
    fold_left (paso_columna a) (a_columnas_monetarias a) (Some []) = Some d' /\
    total_de a "Factura" = Some t /\
    dict_get "Total Factura" d' = Some t /\
    calcular_totales_financieros a
      = Some (dict_set "Total Factura" (suma_con_iva d') d') /\
    map fst (dict_set "Total Factura" (suma_con_iva d') d') = map fst d' /\
    NoDup (map fst d') /\
    dict_get "Total Factura" (dict_set "Total Factura" (suma_con_iva d') d')
      = Some (suma_con_iva d').
Proof.
  assert (H : In (NStr "Factura") (columnas hoja_Factura)) by (vm_compute; now left).
  split; [exact H|].
  exact (C10_colision_factura sin_parseo hoja_Factura config_vacia H).
Defined.

(** * Further properties of the code *)

(** ** Shape and value of the totals *)

(** When the sheet's labels are distinct (as [pd.read_excel] makes them) and
    no monetary label contains "con IVA" or is "Factura", the totals are, in
    order, each monetary column's "Total", then (when it qualifies for tax)
    its "IVA de" and "Total con IVA de" entries, and last "Total Factura",
    which is the sum of the tax-inclusive totals of the qualifying columns. *)
Theorem X_forma_totales (parse : string -> option Q) (hoja : DataFrame)
  (conf : Configuracion)
  (Hnd : NoDup (columnas hoja))
  (Hci : forall s, In (NStr s) (a_columnas_monetarias (nuevo_analizador parse hoja conf)) ->
         str_in "con IVA" s = false)
  (Hf : ~ In (NStr "Factura") (a_columnas_monetarias (nuevo_analizador parse hoja conf))) :
  exists g,
    calcular_totales_financieros (nuevo_analizador parse hoja conf)
    = Some (flat_map (entradas_columna (nuevo_analizador parse hoja conf))
                     (a_columnas_monetarias (nuevo_analizador parse hoja conf))
            ++ [("Total Factura", g)])%list /\
    g == total_factura_esperado (nuevo_analizador parse hoja conf)
           (a_columnas_monetarias (nuevo_analizador parse hoja conf)).
Proof.
  unfold calcular_totales_financieros.
  rewrite (bucle_plano_nuevo parse hoja conf Hnd Hci).
  eexists. split.
  - f_equal. apply dict_set_nuevo. intros H.
    destruct (claves_flat _ _ _ H) as [s [Hs [E|[E|E]]]]; try discriminate E.
    change "Total Factura" with ("Total " ++ "Factura") in E.
    apply append_inj_l in E. subst s. exact (Hf Hs).
  - apply suma_entradas. exact Hci.
Qed.

Lemma X_forma_totales_witness :
  NoDup (columnas hoja_A) /\
  (forall s, In (NStr s) (a_columnas_monetarias (nuevo_analizador sin_parseo hoja_A conf_A)) ->
         str_in "con IVA" s = false) /\
  ~ In (NStr "Factura") (a_columnas_monetarias (nuevo_analizador sin_parseo hoja_A conf_A)) /\
  exists g,
    calcular_totales_financieros (nuevo_analizador sin_parseo hoja_A conf_A)
    = Some (flat_map (entradas_columna (nuevo_analizador sin_parseo hoja_A conf_A))
                     (a_columnas_monetarias (nuevo_analizador sin_parseo hoja_A conf_A))
            ++ [("Total Factura", g)])%list /\
    g == total_factura_esperado (nuevo_analizador sin_parseo hoja_A conf_A)
           (a_columnas_monetarias (nuevo_analizador sin_parseo hoja_A conf_A)).
Proof.
  assert (H1 : NoDup (columnas hoja_A)).
  { vm_compute. repeat constructor; simpl; intuition discriminate. }
  assert (H2 : forall s, In (NStr s)
                 (a_columnas_monetarias (nuevo_analizador sin_parseo hoja_A conf_A)) ->
               str_in "con IVA" s = false).
  { vm_compute. intros s [E|[]]. injection E as <-. reflexivity. }
  assert (H3 : ~ In (NStr "Factura")
                 (a_columnas_monetarias (nuevo_analizador sin_parseo hoja_A conf_A))).
  { vm_compute. intros [E|[]]. discriminate E. }
  split; [exact H1|]. split; [exact H2|]. split; [exact H3|].
  exact (X_forma_totales sin_parseo hoja_A conf_A H1 H2 H3).
Defined.

(** With distinct labels and no monetary label containing "con IVA",
    "Total Factura" is the sum, over the monetary columns that qualify for
    tax, of their total plus its tax (a column labelled "Factura" allowed). *)
Theorem X_total_factura_valor (parse : string -> option Q) (hoja : DataFrame)
  (conf : Configuracion)
  (Hnd : NoDup (columnas hoja))
  (Hci : forall s, In (NStr s) (a_columnas_monetarias (nuevo_analizador parse hoja conf)) ->
         str_in "con IVA" s = false) :
  exists tot g,
    calcular_totales_financieros (nuevo_analizador parse hoja conf) = Some tot /\
    dict_get "Total Factura" tot = Some g /\
    g == total_factura_esperado (nuevo_analizador parse hoja conf)
           (a_columnas_monetarias (nuevo_analizador parse hoja conf)).
Proof.
  unfold calcular_totales_financieros.
  rewrite (bucle_plano_nuevo parse hoja conf Hnd Hci).
  do 2 eexists. split; [reflexivity|]. split.
  - rewrite dict_get_set, String.eqb_refl. reflexivity.
  - apply suma_entradas. exact Hci.
Qed.

Lemma X_total_factura_valor_witness :
  NoDup (columnas hoja_Factura) /\
  (forall s, In (NStr s)
       (a_columnas_monetarias (nuevo_analizador sin_parseo hoja_Factura config_vacia)) ->
     str_in "con IVA" s = false) /\
  exists tot g,
    calcular_totales_financieros (nuevo_analizador sin_parseo hoja_Factura config_vacia)
      = Some tot /\
    dict_get "Total Factura" tot = Some g /\
    g == total_factura_esperado (nuevo_analizador sin_parseo hoja_Factura config_vacia)
           (a_columnas_monetarias (nuevo_analizador sin_parseo hoja_Factura config_vacia)).
Proof.
  assert (H1 : NoDup (columnas hoja_Factura)).
  { vm_compute. repeat constructor; simpl; intuition discriminate. }
  assert (H2 : forall s, In (NStr s)
       (a_columnas_monetarias (nuevo_analizador sin_parseo hoja_Factura config_vacia)) ->
     str_in "con IVA" s = false).
  { vm_compute. intros s [E|[]]. injection E as <-. reflexivity. }
  split; [exact H1|]. split; [exact H2|].
  exact (X_total_factura_valor sin_parseo hoja_Factura config_vacia H1 H2).
Defined.

(** With [calcular_iva] false and no monetary label containing "con IVA",
    every entry is a "Total <column>" of a monetary column or the grand
    total, and "Total Factura" is 0. *)
Theorem X_sin_iva_factura_cero (parse : string -> option Q) (hoja : DataFrame)
  (conf : Configuracion)
  (Hiva : get_calcular_iva conf = false)
  (Hci : forall s, In (NStr s) (a_columnas_monetarias (nuevo_analizador parse hoja conf)) ->
         str_in "con IVA" s = false) :
  exists tot,
    calcular_totales_financieros (nuevo_analizador parse hoja conf) = Some tot /\
    dict_get "Total Factura" tot = Some 0 /\
    (forall k, In k (map fst tot) ->
       k = "Total Factura" \/
       exists s, In (NStr s) (a_columnas_monetarias (nuevo_analizador parse hoja conf)) /\
                 k = "Total " ++ s).
Proof.
  set (a := nuevo_analizador parse hoja conf) in *.
  destruct (bucle_nuevo parse hoja conf) as [d' Hd']. fold a in Hd'.
  set (P := fun d : dict => forall k, In k (map fst d) ->
              exists s, In (NStr s) (a_columnas_monetarias a) /\ k = "Total " ++ s).
  assert (HP : P d').
  { apply (bucle_inv a P (a_columnas_monetarias a) [] d'); [intros k []| |exact Hd'].
    intros c e e' Hc He Hp. unfold paso_columna in Hp.
    destruct c as [col|z]; [|discriminate].
    destruct (obtener_columna (a_df a) (NStr col)) as [serie|]; [|discriminate].
    destruct (suma_serie serie) as [t|]; [|discriminate].
    assert (Hc' : get_calcular_iva (a_configuracion a) = false) by exact Hiva.
    rewrite Hc' in Hp. simpl andb in Hp. cbv beta iota zeta in Hp.
    injection Hp as <-. intros k Hk. apply claves_set_In_iff in Hk.
    destruct Hk as [->|Hk]; [exists col; split; [exact Hc|reflexivity] | exact (He k Hk)]. }
  assert (H0 : suma_con_iva d' = 0).
  { apply suma_fold_cero. intros k Hk. destruct (HP k Hk) as [s [Hs ->]].
    apply filtro_Total. now apply Hci. }
  exists (dict_set "Total Factura" (suma_con_iva d') d'). split.
  - unfold calcular_totales_financieros. now rewrite Hd'.
  - split.
    + now rewrite dict_get_set, String.eqb_refl, H0.
    + intros k Hk. apply claves_set_In_iff in Hk. destruct Hk as [->|Hk]; [now left|].
      right. exact (HP k Hk).
Qed.

Lemma X_sin_iva_factura_cero_witness :
  get_calcular_iva conf_sin_iva = false /\
  (forall s, In (NStr s) (a_columnas_monetarias (nuevo_analizador sin_parseo hoja_A conf_sin_iva)) ->
         str_in "con IVA" s = false) /\
  exists tot,
    calcular_totales_financieros (nuevo_analizador sin_parseo hoja_A conf_sin_iva) = Some tot /\
    dict_get "Total Factura" tot = Some 0 /\
    (forall k, In k (map fst tot) ->
       k = "Total Factura" \/
       exists s, In (NStr s)
                   (a_columnas_monetarias (nuevo_analizador sin_parseo hoja_A conf_sin_iva)) /\
                 k = "Total " ++ s).
Proof.
  assert (H1 : get_calcular_iva conf_sin_iva = false) by reflexivity.
  assert (H2 : forall s, In (NStr s)
                 (a_columnas_monetarias (nuevo_analizador sin_parseo hoja_A conf_sin_iva)) ->
               str_in "con IVA" s = false).
  { vm_compute. intros s [E|[]]. injection E as <-. reflexivity. }
  split; [exact H1|]. split; [exact H2|].
  exact (X_sin_iva_factura_cero sin_parseo hoja_A conf_sin_iva H1 H2).
Defined.

(** The totals depend only on the labels and on the cells of the monetary
    columns: two sheets that agree there give the same totals. *)
Theorem X_independencia_no_monetarias (parse : string -> option Q)
  (h1 h2 : DataFrame) (conf : Configuracion)
  (H : Forall2 igual_en_monetarias h1 h2) :
  calcular_totales_financieros (nuevo_analizador parse h1 conf)
  = calcular_totales_financieros (nuevo_analizador parse h2 conf).
Proof.
  assert (Hcols : columnas h1 = columnas h2).
  { unfold columnas. induction H as [|c1 c2 r1 r2 [E _] _ IH]; simpl; congruence. }
  assert (Hmon : a_columnas_monetarias (nuevo_analizador parse h1 conf)
                 = a_columnas_monetarias (nuevo_analizador parse h2 conf))
    by now rewrite !monetarias_nuevo, Hcols.
  unfold calcular_totales_financieros. rewrite <- Hmon.
  rewrite (fold_paso_ext (nuevo_analizador parse h1 conf) (nuevo_analizador parse h2 conf));
    [reflexivity|].
  intros c acc Hc. rewrite monetarias_nuevo, filter_In in Hc. destruct Hc as [_ M].
  unfold paso_columna. destruct acc as [totales|]; [|reflexivity].
  destruct c as [col|z]; [|reflexivity].
  assert (E : obtener_columna (a_df (nuevo_analizador parse h1 conf)) (NStr col)
              = obtener_columna (a_df (nuevo_analizador parse h2 conf)) (NStr col)).
  { rewrite !df_nuevo, !obtener_preparar, M.
    now rewrite (obtener_igual h1 h2 (NStr col) H M). }
  rewrite E. reflexivity.
Qed.

Lemma X_independencia_no_monetarias_witness :
  Forall2 igual_en_monetarias hoja_A
    [(NStr "Fecha", [CNulo]); (NStr "Precio", [CNum 100; CNum 200]);
     (NStr "Cantidad", [CTexto "x"])] /\
  calcular_totales_financieros (nuevo_analizador sin_parseo hoja_A conf_A)
  = calcular_totales_financieros (nuevo_analizador sin_parseo
      [(NStr "Fecha", [CNulo]); (NStr "Precio", [CNum 100; CNum 200]);
       (NStr "Cantidad", [CTexto "x"])] conf_A).
Proof.
  assert (H : Forall2 igual_en_monetarias hoja_A
    [(NStr "Fecha", [CNulo]); (NStr "Precio", [CNum 100; CNum 200]);
     (NStr "Cantidad", [CTexto "x"])]).
  { unfold hoja_A. repeat constructor; discriminate. }
  split; [exact H|].
  exact (X_independencia_no_monetarias sin_parseo _ _ conf_A H).
Defined.

(** On an analyzer built by the constructor, the aggregation never fails
    (no missing column, no text left in a monetary column), every label of
    the totals occurs once, and "Total Factura" is present, so the report's
    [totales_financieros['Total Factura']] lookup always succeeds. *)
Theorem X_totales_definidos (parse : string -> option Q) (hoja : DataFrame)
  (conf : Configuracion) :
  exists tot g,
    calcular_totales_financieros (nuevo_analizador parse hoja conf) = Some tot /\
    NoDup (map fst tot) /\
    dict_get "Total Factura" tot = Some g.
Proof.
  destruct (bucle_nuevo parse hoja conf) as [d' Hd'].
  exists (dict_set "Total Factura" (suma_con_iva d') d'), (suma_con_iva d').
  split; [unfold calcular_totales_financieros; now rewrite Hd'|]. split.
  - apply claves_set_NoDup.
    apply (bucle_inv (nuevo_analizador parse hoja conf) (fun d => NoDup (map fst d))
             (a_columnas_monetarias (nuevo_analizador parse hoja conf)) [] d');
      [constructor| |exact Hd'].
    intros c e e' _ He Hp. exact (paso_NoDup _ e e' c He Hp).
  - now rewrite dict_get_set, String.eqb_refl.
Qed.

(** ** Finding the workbook *)

(** The path returned by [_validar_archivo] is the argument itself when it is
    a file, an entry of the workbook listing, or one of the files that the
    glob of its name lists: it never builds a path of its own. *)
Theorem X_validar_origen (parse_int : string -> option Z) (isdigit : string -> bool)
  (env : Entorno) (archivo_excel : string) (entradas : list string) (p : string)
  (H : validar_archivo parse_int isdigit env archivo_excel entradas = Ok p) :
  (p = archivo_excel /\ es_archivo env archivo_excel = true) \/
  In p (glob_excel env) \/
  (exists l, glob_nombre env archivo_excel = Some l /\ In p l).
Proof.
  unfold validar_archivo in H. cbv zeta in H.
  destruct (es_archivo env archivo_excel) eqn:Ea.
  { left. injection H as <-. now split. }
  fold (por_nombre parse_int entradas (glob_nombre env archivo_excel)) in H.
  destruct (isdigit archivo_excel).
  - destruct (parse_int archivo_excel) as [num|]; [|discriminate].
    destruct ((1 <=? num)%Z && (num <=? Z.of_nat (length (glob_excel env)))%Z) eqn:R.
    + injection H as <-. right; left. apply andb_true_iff in R. destruct R as [R1 R2].
      apply Z.leb_le in R1, R2. apply nth_In. lia.
    + right; right. exact (por_nombre_Ok parse_int entradas _ p H).
  - right; right. exact (por_nombre_Ok parse_int entradas _ p H).
Qed.

Lemma X_validar_origen_witness :
  validar_archivo int_decimal isdigit_ascii entorno_ej "ventas.xlsx" ["x"; "5"; "2"]
  = Ok "2024/ventas.xlsx" /\
  ((("2024/ventas.xlsx" = "ventas.xlsx" /\ es_archivo entorno_ej "ventas.xlsx" = true) \/
    In "2024/ventas.xlsx" (glob_excel entorno_ej) \/
    (exists l, glob_nombre entorno_ej "ventas.xlsx" = Some l /\ In "2024/ventas.xlsx" l))).
Proof.
  assert (E : validar_archivo int_decimal isdigit_ascii entorno_ej "ventas.xlsx" ["x"; "5"; "2"]
              = Ok "2024/ventas.xlsx") by (vm_compute; reflexivity).
  split; [exact E|]. exact (X_validar_origen int_decimal isdigit_ascii entorno_ej _ _ _ E).
Defined.


(** [_validar_archivo] only asks the user to choose when the argument is not
    a file, the numeric branch falls through, and the glob of the name
    lists at least two files. *)
Theorem X_validar_pregunta (parse_int : string -> option Z) (isdigit : string -> bool)
  (env : Entorno) (archivo_excel : string) (entradas : list string)
  (H : validar_archivo parse_int isdigit env archivo_excel entradas = EsperaEntrada) :
  es_archivo env archivo_excel = false /\
  (isdigit archivo_excel = false \/
   exists num, parse_int archivo_excel = Some num /\
     ~ (1 <= num <= Z.of_nat (length (glob_excel env)))%Z) /\
  (exists l, glob_nombre env archivo_excel = Some l /\ (2 <= length l)%nat).
Proof.
  unfold validar_archivo in H. cbv zeta in H.
  destruct (es_archivo env archivo_excel); [discriminate|]. split; [reflexivity|].
  fold (por_nombre parse_int entradas (glob_nombre env archivo_excel)) in H.
  destruct (isdigit archivo_excel).
  - destruct (parse_int archivo_excel) as [num|]; [|discriminate].
    destruct ((1 <=? num)%Z && (num <=? Z.of_nat (length (glob_excel env)))%Z) eqn:R;
      [discriminate|].
    split; [|exact (por_nombre_Espera parse_int entradas _ H)].
    right. exists num. split; [reflexivity|]. intros [R1 R2]. apply Z.leb_le in R1, R2.
    rewrite R1, R2 in R. discriminate.
  - split; [now left|exact (por_nombre_Espera parse_int entradas _ H)].
Qed.

Lemma X_validar_pregunta_witness :
  validar_archivo int_decimal isdigit_ascii entorno_ej "ventas.xlsx" ["x"; "7"]
  = EsperaEntrada /\
  exists l, glob_nombre entorno_ej "ventas.xlsx" = Some l /\ (2 <= length l)%nat.
Proof.
  assert (E : validar_archivo int_decimal isdigit_ascii entorno_ej "ventas.xlsx" ["x"; "7"]
              = EsperaEntrada) by (vm_compute; reflexivity).
  split; [exact E|].
  exact (proj2 (proj2 (X_validar_pregunta int_decimal isdigit_ascii entorno_ej _ _ E))).
Defined.

(** In the disambiguation prompt of [_validar_archivo], answers that are not
    integers or are out of [1 .. len(posibles_rutas)] are skipped, and the
    first valid answer [n] returns [posibles_rutas[n-1]], whatever follows. *)
Theorem X_elegir_ruta_primera (parse_int : string -> option Z)
  (posibles_rutas pre post : list string) (e : string) (n : Z)
  (Hpre : Forall (fun x => forall m, parse_int x = Some m ->
                   ~ (1 <= m <= Z.of_nat (length posibles_rutas))%Z) pre)
  (He : parse_int e = Some n)
  (Hn : (1 <= n <= Z.of_nat (length posibles_rutas))%Z) :
  elegir_ruta parse_int posibles_rutas (pre ++ e :: post)
  = Ok (nth (Z.to_nat (n - 1)) posibles_rutas "").
Proof.
  induction Hpre as [|x pre Hx _ IH]; simpl.
  - rewrite He. replace ((1 <=? n)%Z && (n <=? Z.of_nat (length posibles_rutas))%Z)
      with true; [reflexivity|]. symmetry. apply andb_true_iff.
    split; apply Z.leb_le; lia.
  - destruct (parse_int x) as [m|] eqn:Ex; [|exact IH].
    destruct ((1 <=? m)%Z && (m <=? Z.of_nat (length posibles_rutas))%Z) eqn:R; [|exact IH].
    exfalso. apply (Hx m eq_refl). apply andb_true_iff in R. destruct R as [R1 R2].
    apply Z.leb_le in R1, R2. lia.
Qed.

Lemma X_elegir_ruta_primera_witness :
  elegir_ruta int_decimal ["2023/ventas.xlsx"; "2024/ventas.xlsx"] (["x"; "0"; "3"] ++ "2" :: ["1"])
  = Ok "2024/ventas.xlsx".
Proof.
  rewrite (X_elegir_ruta_primera int_decimal ["2023/ventas.xlsx"; "2024/ventas.xlsx"]
             ["x"; "0"; "3"] ["1"] "2" 2); [reflexivity| | |].
  - repeat constructor; intros m Hm; vm_compute in Hm; try discriminate;
      injection Hm as <-; simpl; lia.
  - reflexivity.
  - simpl; lia.
Defined.

(** ** Choosing the sheet *)

(** The index accepted by the sheet prompt of [_cargar_archivo] is never
    negative and always names a sheet: [xls.sheet_names[seleccion]] neither
    wraps around from the end nor raises [IndexError]. *)
Theorem X_elegir_hoja_rango (parse_int : string -> option Z)
  (hojas entradas : list string) (seleccion : Z)
  (H : elegir_hoja parse_int (length hojas) entradas = Some seleccion) :
  (0 <= seleccion)%Z /\ exists hoja, nth_error hojas (Z.to_nat seleccion) = Some hoja.
Proof.
  induction entradas as [|e r IH]; simpl in H; [discriminate|].
  destruct (parse_int e) as [v|]; [|exact (IH H)].
  destruct ((0 <=? v - 1)%Z && (v - 1 <? Z.of_nat (length hojas))%Z) eqn:R; [|exact (IH H)].
  injection H as <-. apply andb_true_iff in R. destruct R as [R1 R2].
  apply Z.leb_le in R1. apply Z.ltb_lt in R2. split; [exact R1|].
  destruct (nth_error hojas (Z.to_nat (v - 1))) as [h|] eqn:N; [now exists h|].
  apply nth_error_None in N. lia.
Qed.

Lemma X_elegir_hoja_rango_witness :
  elegir_hoja int_decimal (length ["Enero"; "Febrero"]) ["0"; "abc"; "3"; "2"] = Some 1%Z /\
  (0 <= 1)%Z /\ exists hoja, nth_error ["Enero"; "Febrero"] (Z.to_nat 1) = Some hoja.
Proof.
  assert (E : elegir_hoja int_decimal (length ["Enero"; "Febrero"]) ["0"; "abc"; "3"; "2"]
              = Some 1%Z) by (vm_compute; reflexivity).
  split; [exact E|]. exact (X_elegir_hoja_rango int_decimal _ _ _ E).
Defined.

(** On a workbook without sheets the sheet prompt of [_cargar_archivo]
    accepts no answer at all: it keeps asking whatever the user types. *)
Theorem X_elegir_hoja_sin_hojas (parse_int : string -> option Z)
  (entradas : list string) :
  elegir_hoja parse_int 0 entradas = None.
Proof.
  induction entradas as [|e r IH]; simpl; [reflexivity|].
  destruct (parse_int e) as [v|]; [|exact IH].
  destruct ((0 <=? v - 1)%Z && (v - 1 <? 0)%Z) eqn:R; [|exact IH].
  apply andb_true_iff in R. destruct R as [R1 R2].
  apply Z.leb_le in R1. apply Z.ltb_lt in R2. lia.
Qed.

(** The sheet prompt of [_cargar_archivo] skips answers that are not
    integers or not in [1 .. len(sheet_names)] and selects index [v - 1] for
    the first valid answer [v]. *)
Theorem X_elegir_hoja_primera (parse_int : string -> option Z) (n : nat)
  (pre post : list string) (e : string) (v : Z)
  (Hpre : Forall (fun x => forall m, parse_int x = Some m -> ~ (1 <= m <= Z.of_nat n)%Z) pre)
  (He : parse_int e = Some v) (Hv : (1 <= v <= Z.of_nat n)%Z) :
  elegir_hoja parse_int n (pre ++ e :: post) = Some (v - 1)%Z.
Proof.
  induction Hpre as [|x pre Hx _ IH]; simpl.
  - rewrite He. replace ((0 <=? v - 1)%Z && (v - 1 <? Z.of_nat n)%Z) with true;
      [reflexivity|]. symmetry. apply andb_true_iff.
    split; [apply Z.leb_le|apply Z.ltb_lt]; lia.
  - destruct (parse_int x) as [m|] eqn:Ex; [|exact IH].
    destruct ((0 <=? m - 1)%Z && (m - 1 <? Z.of_nat n)%Z) eqn:R; [|exact IH].
    exfalso. apply (Hx m eq_refl). apply andb_true_iff in R. destruct R as [R1 R2].
    apply Z.leb_le in R1. apply Z.ltb_lt in R2. lia.
Qed.

Lemma X_elegir_hoja_primera_witness :
  elegir_hoja int_decimal 2 (["0"; "hoja"; "3"] ++ "1" :: ["2"]) = Some 0%Z.
Proof.
  rewrite (X_elegir_hoja_primera int_decimal 2 ["0"; "hoja"; "3"] ["2"] "1" 1);
    [reflexivity| | |].
  - repeat constructor; intros m Hm; vm_compute in Hm; try discriminate;
      injection Hm as <-; simpl; lia.
  - reflexivity.
  - simpl; lia.
Defined.

(** ** The HTML summary *)

(** The summary block of [generar_reporte_html] has one item per entry of
    the totals, in their order, except "Total Factura": as the totals hold
    "Total Factura" once, it has one item less than the totals have keys. *)
Theorem X_resumen_items (parse : string -> option Q) (hoja : DataFrame)
  (conf : Configuracion) (fmt : Q -> string) :
  exists tot,
    calcular_totales_financieros (nuevo_analizador parse hoja conf) = Some tot /\
    let items := filter (fun '(concepto, _) => negb (String.eqb concepto "Total Factura")) tot in
    resumen_financiero fmt tot
    = fold_right String.append ""
        (map (fun '(concepto, valor) => item_resumen fmt concepto valor) items) /\
    length items = (length tot - 1)%nat.
Proof.
  destruct (bucle_nuevo parse hoja conf) as [d' Hd'].
  set (tot := dict_set "Total Factura" (suma_con_iva d') d').
  exists tot. split; [unfold calcular_totales_financieros; now rewrite Hd'|].
  cbv zeta. split; [apply resumen_fold_acc|].
  apply length_filter_unico.
  - apply claves_set_NoDup.
    apply (bucle_inv (nuevo_analizador parse hoja conf) (fun d => NoDup (map fst d))
             (a_columnas_monetarias (nuevo_analizador parse hoja conf)) [] d');
      [constructor| |exact Hd'].
    intros c e e' _ He Hp. exact (paso_NoDup _ e e' c He Hp).
  - apply claves_set_In_iff. now left.
Qed.

(** On a sheet with no monetary column the totals are the single entry
    "Total Factura" = 0 and the summary block of the report is empty. *)
Theorem X_resumen_sin_monetarias (parse : string -> option Q) (hoja : DataFrame)
  (conf : Configuracion) (fmt : Q -> string)
  (H : forall c, In c (columnas hoja) -> es_monetaria c = false) :
  calcular_totales_financieros (nuevo_analizador parse hoja conf)
  = Some [("Total Factura", 0)] /\
  resumen_financiero fmt [("Total Factura", 0)] = "".
Proof.
  split; [|reflexivity].
  unfold calcular_totales_financieros. rewrite monetarias_nuevo.
  replace (filter es_monetaria (columnas hoja)) with (@nil nombre); [reflexivity|].
  revert H. generalize (columnas hoja) as cs. induction cs as [|c cs IH]; intros H;
    [reflexivity|]. simpl. rewrite (H c (or_introl eq_refl)).
  apply IH. intros c' Hc'. exact (H c' (or_intror Hc')).
Qed.

Lemma X_resumen_sin_monetarias_witness :
  calcular_totales_financieros (nuevo_analizador sin_parseo hoja_Clientes config_vacia)
  = Some [("Total Factura", 0)] /\
  resumen_financiero (fun _ => EmptyString) [("Total Factura", 0)] = "".
Proof.
  apply (X_resumen_sin_monetarias sin_parseo hoja_Clientes config_vacia (fun _ => EmptyString)).
  intros c Hc. simpl in Hc.
  destruct Hc as [<-|[<-|[]]]; vm_compute; reflexivity.
Defined.
